(** * MarketDataCollector: a shallow embedding of the batched metrics
    collector ([src/subscription/equity_metrics.py]), the persistence sink
    ([src/data/market_data_store.py]) and the streaming subscription
    lifecycle ([src/subscription/market_data_subscription.py]). *)

From Stdlib Require Import List String Ascii ZArith QArith Bool Lia Arith.
Import ListNotations.
Open Scope nat_scope.
Open Scope string_scope.
Open Scope list_scope.
#[local] Set Warnings "-register-all".
(** [String] shadows [length]; list lengths are written [List.length]. *)

(** ** Python values, exceptions and results *)

(** Values found in the dictionaries the code passes around.  Pydantic
    dumps of the upstream records hold ints, Decimals, floats, strings,
    [None] and nested dicts.  Numbers are modelled exactly (as [Q]); the
    rounding of IEEE floats plays no part in the claims. *)
Inductive pyval : Type :=
| VNone
| VInt (z : Z)
| VFloat (q : Q)
| VDecimal (q : Q)
| VStr (s : string)
| VDict (d : list (string * pyval)).

Definition pydict := list (string * pyval).

(** The exception classes the modelled code raises or catches. *)
Inductive exn : Type :=
| ValueError
| TypeError
| KeyError
| AttributeError
| ZeroDivisionError
| ApiError        (** raised by an upstream API call *)
| DbError         (** raised by [DatabaseConnector.execute_query] *)
| AuthError       (** raised by the OAuth session (creation or refresh) *)
| StreamError     (** raised by a DXLinkStreamer operation *)
| CancelledError.

Inductive result (A : Type) : Type :=
| Ok (a : A)
| Err (e : exn).
Arguments Ok {A} a.
Arguments Err {A} e.

Definition rbind {A B} (r : result A) (f : A -> result B) : result B :=
  match r with Ok a => f a | Err e => Err e end.

(** Python truthiness of a value. *)
Definition truthy (v : pyval) : bool :=
  match v with
  | VNone => false
  | VInt z => negb (Z.eqb z 0)
  | VFloat q | VDecimal q => negb (Qeq_bool q 0)
  | VStr s => negb (String.eqb s "")
  | VDict d => match d with [] => false | _ => true end
  end.

(** ** Ordered dictionaries (Python dicts keep insertion order) *)

Fixpoint od_lookup {V} (k : string) (d : list (string * V)) : option V :=
  match d with
  | [] => None
  | (k', v) :: d' => if String.eqb k k' then Some v else od_lookup k d'
  end.

(** [d[k] = v]: replaces the value in place when [k] is present, appends
    the pair otherwise. *)
Fixpoint od_set {V} (k : string) (v : V) (d : list (string * V))
  : list (string * V) :=
  match d with
  | [] => [(k, v)]
  | (k', v') :: d' =>
      if String.eqb k k' then (k', v) :: d' else (k', v') :: od_set k v d'
  end.

(** [d.update(e)]. *)
Definition od_update {V} (d e : list (string * V)) : list (string * V) :=
  fold_left (fun acc '(k, v) => od_set k v acc) e d.

(** [d.get(k)] (default [None]). *)
Definition dget (d : pydict) (k : string) : pyval :=
  match od_lookup k d with Some v => v | None => VNone end.

(** ** Python [range] and slices *)

Fixpoint range_aux (fuel i stop step : nat) : list nat :=
  match fuel with
  | O => []
  | S f => if Nat.ltb i stop then i :: range_aux f (i + step) stop step else []
  end.

(** [range(start, stop, step)] for a positive [step]. *)
Definition py_range (start stop step : nat) : list nat :=
  range_aux stop start stop step.

(** [l[i:j]] for [0 <= i]. *)
Definition py_slice {A} (l : list A) (i j : nat) : list A :=
  firstn (j - i) (skipn i l).

(** ** [EquityMetrics._chunk_symbols] *)

(** [for i in range(0, len(symbols_list), chunk_size):
        yield symbols_list[i:i + chunk_size]] *)
Definition _chunk_symbols (symbols_list : list string) (chunk_size : nat)
  : list (list string) :=
  map (fun i => py_slice symbols_list i (i + chunk_size))
      (py_range 0 (List.length symbols_list) chunk_size).

(** ** The environment: upstream API, database and session *)

(** An upstream record ([MarketMetricInfo] or [MarketData]): its [symbol]
    attribute and its [model_dump()]. *)
Record Rec := mkRec { rec_symbol : string; rec_dump : pydict }.

(** The collaborators of [EquityMetrics]: the two tastytrade calls
    ([None] when the call raises), the database ([false] when
    [execute_query] raises), the session state read by [validate_session],
    and Python's parsing of strings by [float()] and [int()]. *)
Record Api := mkApi {
  get_market_metrics : list string -> option (list Rec);
  get_market_data_by_type : list string -> option (list Rec);
  execute_query : string -> list pyval -> bool;
  session_expired : bool;
  refresh_ok : bool;
  str_to_float : string -> option Q;
  str_to_int : string -> option Z
}.

(** ** A state and exception monad for the Python effects *)

(** Observable effects: API calls, [time.sleep] and inserted rows. *)
Inductive trace_ev : Type :=
| TCall (api : string) (chunk : list string)
| TSleep (secs : Q).

Record World := mkWorld {
  w_trace : list trace_ev;
  w_rows : list (string * list pyval)   (** (table, inserted parameters) *)
}.

Definition M (A : Type) : Type := World -> result A * World.

Definition ret {A} (a : A) : M A := fun w => (Ok a, w).

Definition bind {A B} (m : M A) (f : A -> M B) : M B :=
  fun w => match m w with
           | (Ok a, w') => f a w'
           | (Err e, w') => (Err e, w')
           end.

Notation "x <- m ;; k" := (bind m (fun x => k))
  (at level 61, m at next level, right associativity).
Notation "m ;;; k" := (bind m (fun _ => k))
  (at level 61, right associativity).

Definition raise {A} (e : exn) : M A := fun w => (Err e, w).

(** [try: m except Exception as e: h e]. *)
Definition try_except {A} (m : M A) (h : exn -> M A) : M A :=
  fun w => match m w with
           | (Err e, w') => h e w'
           | r => r
           end.

Definition sleep (secs : Q) : M unit :=
  fun w => (Ok tt, mkWorld (w_trace w ++ [TSleep secs]) (w_rows w)).

Definition record_call (api : string) (chunk : list string) : M unit :=
  fun w => (Ok tt, mkWorld (w_trace w ++ [TCall api chunk]) (w_rows w)).

(** [delay > 0] on a Python float. *)
Definition Qpos_b (q : Q) : bool := negb (Qle_bool q 0).

(** ** [EquityMetrics._combine_data] *)

(** A combined row [{'symbol', 'metrics', 'market_data'}]. *)
Record CRow := mkCRow {
  c_symbol : string;
  c_metrics : option pydict;
  c_market_data : option pydict
}.

Definition Combined := list (string * CRow).

Definition _combine_data (metrics_data market_data : list Rec) : Combined :=
  let combined_data :=
    fold_left
      (fun cd metric =>
         od_set (rec_symbol metric)
                (mkCRow (rec_symbol metric) (Some (rec_dump metric)) None) cd)
      metrics_data [] in
  fold_left
    (fun cd equity =>
       let symbol := rec_symbol equity in
       match od_lookup symbol cd with
       | Some row =>
           od_set symbol (mkCRow (c_symbol row) (c_metrics row)
                                 (Some (rec_dump equity))) cd
       | None =>
           od_set symbol (mkCRow symbol None (Some (rec_dump equity))) cd
       end)
    market_data combined_data.

(** The dump of the last record of [l] with symbol [s]: the value a
    sequence of [d[symbol] = ...] assignments leaves for [s]. *)
Definition last_dump (s : string) (l : list Rec) : option pydict :=
  fold_left (fun acc r => if String.eqb s (rec_symbol r) then Some (rec_dump r) else acc)
            l None.

(** ** [_fetch_metrics_in_batches] and [_fetch_market_data_in_batches] *)

(** The loop the two fetchers share: [i] is the 1-based chunk number of
    [enumerate(chunks, 1)], [n] is [len(chunks)].  The delay sits inside the
    [try] after the call, so a chunk whose call raises skips it. *)
Fixpoint fetch_loop (name : string) (call : list string -> option (list Rec))
         (delay_between_calls : Q) (n i : nat) (chunks : list (list string))
         (acc : list Rec) : M (list Rec) :=
  match chunks with
  | [] => ret acc
  | chunk :: rest =>
      acc' <- try_except
                (record_call name chunk ;;;
                 match call chunk with
                 | None => raise ApiError
                 | Some data =>
                     (if Nat.ltb i n && Qpos_b delay_between_calls
                      then sleep delay_between_calls else ret tt) ;;;
                     ret (acc ++ data)
                 end)
                (fun _ => ret acc) ;;
      fetch_loop name call delay_between_calls n (S i) rest acc'
  end.

Definition _fetch_metrics_in_batches (api : Api) (symbols_list : list string)
           (delay_between_calls : Q) : M (list Rec) :=
  let chunks := _chunk_symbols symbols_list 10 in
  fetch_loop "get_market_metrics" (get_market_metrics api) delay_between_calls
             (List.length chunks) 1 chunks [].

Definition _fetch_market_data_in_batches (api : Api) (symbols_list : list string)
           (delay_between_calls : Q) : M (list Rec) :=
  let chunks := _chunk_symbols symbols_list 10 in
  fetch_loop "get_market_data_by_type" (get_market_data_by_type api)
             delay_between_calls (List.length chunks) 1 chunks [].

(** ** [MarketDataStore]: coercions and the two inserts *)

(** [float(v)] for a value that is not [None]. *)
Definition py_float (api : Api) (v : pyval) : result pyval :=
  match v with
  | VNone => Err TypeError
  | VInt z => Ok (VFloat (inject_Z z))
  | VFloat q | VDecimal q => Ok (VFloat q)
  | VStr s => match str_to_float api s with
              | Some q => Ok (VFloat q)
              | None => Err ValueError
              end
  | VDict _ => Err TypeError
  end.

(** [int(v)] for a value that is not [None]: truncation toward zero. *)
Definition py_int (api : Api) (v : pyval) : result pyval :=
  match v with
  | VNone => Err TypeError
  | VInt z => Ok (VInt z)
  | VFloat q | VDecimal q => Ok (VInt (Z.quot (Qnum q) (Zpos (Qden q))))
  | VStr s => match str_to_int api s with
              | Some z => Ok (VInt z)
              | None => Err ValueError
              end
  | VDict _ => Err TypeError
  end.

(** [None if v is None else float(v)] and its [int] twin. *)
Definition none_or_float (api : Api) (v : pyval) : result pyval :=
  match v with VNone => Ok VNone | _ => py_float api v end.

Definition none_or_int (api : Api) (v : pyval) : result pyval :=
  match v with VNone => Ok VNone | _ => py_int api v end.

(** [d[k]]: raises [KeyError] when [k] is absent. *)
Definition dsub (d : pydict) (k : string) : result pyval :=
  match od_lookup k d with Some v => Ok v | None => Err KeyError end.

(** A tuple display evaluates its items left to right; the first item that
    raises aborts it. *)
Fixpoint sequence (l : list (result pyval)) : result (list pyval) :=
  match l with
  | [] => Ok []
  | r :: rs => rbind r (fun v => rbind (sequence rs) (fun vs => Ok (v :: vs)))
  end.

(** [self.db.execute_query(insert_sql, params=params)]. *)
Definition db_insert (api : Api) (table : string) (params : list pyval)
  : M unit :=
  fun w => if execute_query api table params
           then (Ok tt, mkWorld (w_trace w) (w_rows w ++ [(table, params)]))
           else (Err DbError, w).

(** The [params] tuple of [store_candle_data]. *)
Definition candle_params (api : Api) (candle_data : pydict)
  : result (list pyval) :=
  let g k := Ok (dget candle_data k) in
  let f k := rbind (dsub candle_data k) (none_or_float api) in
  sequence
    [g "event_type"; g "event_symbol"; g "time"; g "open"; g "high"; g "low";
     g "close"; f "volume"; f "bid_volume"; f "ask_volume"; f "imp_volatility";
     g "iv_index"; g "iv_index_5_day_change"; g "iv_index_rank";
     g "tos_iv_index_rank"; g "tw_iv_index_rank"; g "iv_percentile";
     g "liquidity_rating"; g "beta"; g "corr_spy_3month"; g "liquidity_value";
     g "liquidity_rank"].

(** The parameters are built outside the [try]; only the insert is
    guarded. *)
Definition store_candle_data (api : Api) (candle_data : pydict) : M unit :=
  match candle_params api candle_data with
  | Err e => raise e
  | Ok params => try_except (db_insert api "market_data" params) (fun _ => ret tt)
  end.

(** The [params] tuple of [store_metric_data]. *)
Definition metric_params (api : Api) (metrics_data : pydict)
  : result (list pyval) :=
  let g k := Ok (dget metrics_data k) in
  let f k := none_or_float api (dget metrics_data k) in
  let i k := none_or_int api (dget metrics_data k) in
  sequence
    [g "symbol"; f "bid"; f "ask"; f "last_price"; f "close_price"; i "volume";
     f "iv_index"; f "iv_rank"; f "iv_percentile"; f "liquidity_rating";
     f "liquidity_value"; f "iv_30_day"; f "hv_30_day"; f "iv_hv_difference";
     f "hv_60_day"; f "hv_90_day"; f "beta"; g "earnings_expected_date";
     g "earnings_time_of_day"].

Definition store_metric_data (api : Api) (metrics_data : pydict) : M unit :=
  match metric_params api metrics_data with
  | Err e => raise e
  | Ok params => try_except (db_insert api "equity_data" params) (fun _ => ret tt)
  end.

(** ** [EquityMetrics._process_symbol_batch] *)

(** [data['metrics'].get(k) if data['metrics'] else None]. *)
Definition mget (m : option pydict) (k : string) : pyval :=
  match m with
  | Some d => if truthy (VDict d) then dget d k else VNone
  | None => VNone
  end.

(** [v.get(k)] on a value: only dicts have [get]. *)
Definition py_get (v : pyval) (k : string) : result pyval :=
  match v with VDict d => Ok (dget d k) | _ => Err AttributeError end.

(** The body of the [try] building [metrics_dict]: only the two
    [earnings.get] calls can raise. *)
Definition build_metrics_dict (symbol : string) (data : CRow) : result pydict :=
  let m := c_metrics data in
  let md := c_market_data data in
  let earnings := mget m "earnings" in
  let eget k := if truthy earnings then py_get earnings k else Ok VNone in
  rbind (eget "expected_report_date") (fun expected_date =>
  rbind (eget "time_of_day") (fun time_of_day =>
  Ok [("symbol", VStr symbol);
      ("iv_rank", mget m "implied_volatility_index_rank");
      ("iv_index", mget m "implied_volatility_index");
      ("iv_percentile", mget m "implied_volatility_percentile");
      ("liquidity_rating", mget m "liquidity_rating");
      ("liquidity_value", mget m "liquidity_value");
      ("iv_30_day", mget m "implied_volatility_30_day");
      ("hv_30_day", mget m "historical_volatility_30_day");
      ("iv_hv_difference", mget m "iv_hv_30_day_difference");
      ("beta", mget m "beta");
      ("hv_60_day", mget m "historical_volatility_60_day");
      ("hv_90_day", mget m "historical_volatility_90_day");
      ("earnings_expected_date", expected_date);
      ("earnings_time_of_day", time_of_day);
      ("bid", mget md "bid");
      ("ask", mget md "ask");
      ("last_price", mget md "last");
      ("close_price", mget md "prev_close");
      ("volume", mget md "volume")])).

(** [except KeyError / TypeError / Exception: metrics_dict = {'symbol': symbol}]. *)
Definition metrics_dict_of (symbol : string) (data : CRow) : pydict :=
  match build_metrics_dict symbol data with
  | Ok d => d
  | Err _ => [("symbol", VStr symbol)]
  end.

(** [for symbol, data in batch_combined_data.items(): ...;
     self.data_store.store_metric_data(metrics_dict)]: the store call is
    outside the [try]. *)
Fixpoint store_rows (api : Api) (rows : Combined) : M unit :=
  match rows with
  | [] => ret tt
  | (symbol, data) :: rest =>
      store_metric_data api (metrics_dict_of symbol data) ;;;
      store_rows api rest
  end.

Definition _process_symbol_batch (api : Api) (symbols_batch : list string)
           (delay_between_calls : Q) : M Combined :=
  metrics_data <- _fetch_metrics_in_batches api symbols_batch delay_between_calls ;;
  market_data <- _fetch_market_data_in_batches api symbols_batch delay_between_calls ;;
  let batch_combined_data := _combine_data metrics_data market_data in
  store_rows api batch_combined_data ;;;
  ret batch_combined_data.

(** ** [EquityMetrics.gather_metrics] *)

(** [validate_session]: refresh an expired session; a failed refresh is
    re-raised. *)
Definition validate_session (api : Api) : M unit :=
  if session_expired api
  then (if refresh_ok api then ret tt else raise AuthError)
  else ret tt.

(** [math.ceil(total_symbols / symbols_per_batch)] for a non-zero divisor. *)
Definition py_ceil_div (a b : Z) : Z := - ((- a) / b).

(** [symbols_list[batch_start_idx:batch_end_idx]]. *)
Definition batch_slice (symbols_list : list string) (symbols_per_batch : nat)
           (batch_num : nat) : list string :=
  let batch_start_idx := batch_num * symbols_per_batch in
  let batch_end_idx :=
    Nat.min (batch_start_idx + symbols_per_batch) (List.length symbols_list) in
  py_slice symbols_list batch_start_idx batch_end_idx.

Fixpoint batch_loop (api : Api) (symbols_list : list string)
         (symbols_per_batch total_batches : nat)
         (delay_between_calls delay_between_batches : Q)
         (batch_nums : list nat) (all_combined_data : Combined) : M Combined :=
  match batch_nums with
  | [] => ret all_combined_data
  | batch_num :: rest =>
      batch_combined_data <-
        _process_symbol_batch api
          (batch_slice symbols_list symbols_per_batch batch_num)
          delay_between_calls ;;
      let all' := od_update all_combined_data batch_combined_data in
      (if Nat.ltb batch_num (total_batches - 1) && Qpos_b delay_between_batches
       then sleep delay_between_batches else ret tt) ;;;
      batch_loop api symbols_list symbols_per_batch total_batches
                 delay_between_calls delay_between_batches rest all'
  end.

(** The verbose summary divides the elapsed time by
    [len(all_combined_data)]. *)
Definition summary (verbose : bool) (all_combined_data : Combined) : M unit :=
  if verbose
  then (if Nat.eqb (List.length all_combined_data) 0
        then raise ZeroDivisionError else ret tt)
  else ret tt.

Definition gather_metrics (api : Api) (symbols_list : list string)
           (symbols_per_batch : Z) (delay_between_calls delay_between_batches : Q)
           (verbose : bool) : M Combined :=
  validate_session api ;;;
  let total_symbols := Z.of_nat (List.length symbols_list) in
  total_batches <-
    (if Z.eqb symbols_per_batch 0 then raise ZeroDivisionError
     else ret (py_ceil_div total_symbols symbols_per_batch)) ;;
  let nb := Z.to_nat total_batches in
  all_combined_data <-
    batch_loop api symbols_list (Z.to_nat symbols_per_batch) nb
               delay_between_calls delay_between_batches (seq 0 nb) [] ;;
  summary verbose all_combined_data ;;;
  ret all_combined_data.

(** ** Well-formed upstream records *)

(** The dump keys [_process_symbol_batch] reads and [store_metric_data]
    then converts with [float()] or [int()]. *)
Definition numeric_source_keys : list string :=
  ["implied_volatility_index_rank"; "implied_volatility_index";
   "implied_volatility_percentile"; "liquidity_rating"; "liquidity_value";
   "implied_volatility_30_day"; "historical_volatility_30_day";
   "iv_hv_30_day_difference"; "beta"; "historical_volatility_60_day";
   "historical_volatility_90_day"; "bid"; "ask"; "last"; "prev_close"; "volume"].

Definition numeric_or_none (v : pyval) : bool :=
  match v with
  | VNone | VInt _ | VFloat _ | VDecimal _ => true
  | VStr _ | VDict _ => false
  end.

(** A dump whose numeric fields hold numbers (or [None]), as the typed
    pydantic models of the API produce. *)
Definition wf_dump (d : pydict) : bool :=
  forallb (fun k => numeric_or_none (dget d k)) numeric_source_keys.

Definition api_wf (api : Api) : Prop :=
  forall chunk recs,
    (get_market_metrics api chunk = Some recs \/
     get_market_data_by_type api chunk = Some recs) ->
    Forall (fun r => wf_dump (rec_dump r) = true) recs.

(** [validate_session] does not raise. *)
Definition session_ok (api : Api) : Prop :=
  session_expired api = false \/ refresh_ok api = true.

(** The records the successful calls of a fetch loop return, in order. *)
Definition successes (call : list string -> option (list Rec))
           (chunks : list (list string)) : list Rec :=
  List.concat (map (fun ch => match call ch with Some d => d | None => [] end) chunks).

Definition wf_opt (m : option pydict) : bool :=
  match m with Some d => wf_dump d | None => true end.

(** The parameters [store_metric_data] inserts for a combined row, and the
    rows of a batch the database accepts. *)
Definition row_params_ok (api : Api) (row : string * CRow) (ps : list pyval) : Prop :=
  metric_params api (metrics_dict_of (fst row) (snd row)) = Ok ps.

Definition accepted_rows (api : Api) (pss : list (list pyval))
  : list (string * list pyval) :=
  map (pair "equity_data") (filter (execute_query api "equity_data") pss).

(** What [_process_symbol_batch] combines for a batch: the records of the
    successful metrics calls and of the successful market data calls. *)
Definition batch_combined (api : Api) (symbols_batch : list string) : Combined :=
  let chunks := _chunk_symbols symbols_batch 10 in
  _combine_data (successes (get_market_metrics api) chunks)
                (successes (get_market_data_by_type api) chunks).

(** ** Concrete environments used by the witnesses and counterexamples *)

Definition sample_dump : pydict :=
  [("implied_volatility_index_rank", VDecimal (1#2)); ("beta", VDecimal (3#2));
   ("bid", VInt 5)].

Definition recs_of (chunk : list string) : list Rec :=
  map (fun s => mkRec s sample_dump) chunk.

Definition api_of (m p : list string -> option (list Rec))
           (db : string -> list pyval -> bool) : Api :=
  mkApi m p db false true (fun _ => None) (fun _ => None).

(** The metrics call for the chunk [[C; D]] raises. *)
Definition api_cd_fails : Api :=
  api_of (fun ch => if list_eq_dec string_dec ch ["C"; "D"] then None
                    else Some (recs_of ch))
         (fun ch => Some (recs_of ch)) (fun _ _ => true).

(** Every call raises. *)
Definition api_all_fail : Api :=
  api_of (fun _ => None) (fun _ => None) (fun _ _ => true).

(** The database rejects every insert. *)
Definition api_db_down : Api :=
  api_of (fun ch => Some (recs_of ch)) (fun _ => Some []) (fun _ _ => false).

(** The metrics call for the first chunk (it holds "A") raises. *)
Definition api_first_chunk_fails : Api :=
  api_of (fun ch => if in_dec string_dec "A" ch then None else Some (recs_of ch))
         (fun ch => Some (recs_of ch)) (fun _ _ => true).

Definition eleven_symbols : list string :=
  ["A"; "B"; "C"; "D"; "E"; "F"; "G"; "H"; "I"; "J"; "K"].

(** ** Column table of the two inserts (spec, section 6) *)

(** How a column's source value reaches the insert: unchanged, through
    [float()] or through [int()]. *)
Inductive coercion : Type := AsIs | ToFloat | ToInt.

(** [equity_data]: the source key of [metrics_data] for each column, in
    column order. *)
Definition equity_data_columns : list (string * coercion) :=
  [("symbol", AsIs); ("bid", ToFloat); ("ask", ToFloat); ("last_price", ToFloat);
   ("close_price", ToFloat); ("volume", ToInt); ("iv_index", ToFloat);
   ("iv_rank", ToFloat); ("iv_percentile", ToFloat); ("liquidity_rating", ToFloat);
   ("liquidity_value", ToFloat); ("iv_30_day", ToFloat); ("hv_30_day", ToFloat);
   ("iv_hv_difference", ToFloat); ("hv_60_day", ToFloat); ("hv_90_day", ToFloat);
   ("beta", ToFloat); ("earnings_expected_date", AsIs);
   ("earnings_time_of_day", AsIs)].

(** [market_data]: the source key of [candle_data] for each column. *)
Definition market_data_columns : list (string * coercion) :=
  [("event_type", AsIs); ("event_symbol", AsIs); ("time", AsIs); ("open", AsIs);
   ("high", AsIs); ("low", AsIs); ("close", AsIs); ("volume", ToFloat);
   ("bid_volume", ToFloat); ("ask_volume", ToFloat); ("imp_volatility", ToFloat);
   ("iv_index", AsIs); ("iv_index_5_day_change", AsIs); ("iv_index_rank", AsIs);
   ("tos_iv_index_rank", AsIs); ("tw_iv_index_rank", AsIs); ("iv_percentile", AsIs);
   ("liquidity_rating", AsIs); ("beta", AsIs); ("corr_spy_3month", AsIs);
   ("liquidity_value", AsIs); ("liquidity_rank", AsIs)].

Definition coerced_keys (cols : list (string * coercion)) : list string :=
  map fst (filter (fun c => match snd c with AsIs => false | _ => true end) cols).

(** The persisted value [v] of column [col] for source dict [d]: null when
    the source is absent or [None]; otherwise the source itself, a float or
    an int, as the column's coercion says. *)
Definition column_ok (d : pydict) (col : string * coercion) (v : pyval) : Prop :=
  let src := dget d (fst col) in
  (src = VNone -> v = VNone) /\
  (src <> VNone ->
   match snd col with
   | AsIs => v = src
   | ToFloat => exists q, v = VFloat q
   | ToInt => exists z, v = VInt z
   end).

(** The read-and-coerce step of each column, as the two [params] tuples
    write it. *)
Definition metric_column (api : Api) (d : pydict) (col : string * coercion)
  : result pyval :=
  match snd col with
  | AsIs => Ok (dget d (fst col))
  | ToFloat => none_or_float api (dget d (fst col))
  | ToInt => none_or_int api (dget d (fst col))
  end.

Definition candle_column (api : Api) (d : pydict) (col : string * coercion)
  : result pyval :=
  match snd col with
  | AsIs => Ok (dget d (fst col))
  | ToFloat => rbind (dsub d (fst col)) (none_or_float api)
  | ToInt => rbind (dsub d (fst col)) (none_or_int api)
  end.

Definition candle_c7 : pydict :=
  [("volume", VNone); ("bid_volume", VNone); ("ask_volume", VNone);
   ("imp_volatility", VNone); ("open", VDecimal (3#2))].

(** ** [MarketDataSubscription.download_historical_data], consumption loop *)

(** What [await asyncio.wait_for(anext(candle_iter), timeout=3.0)] yields:
    the timeout, or a candle with its [event_symbol], [time], [close] and
    [model_dump()]. *)
Inductive candle_ev : Type :=
| CandleTimeout
| CandleEv (event_symbol : string) (time : Z) (close : Q) (dump : pyval).

(** [s.split('{')[0]]. *)
Fixpoint base_symbol (s : string) : string :=
  match s with
  | EmptyString => EmptyString
  | String c r => if Ascii.eqb c "{"%char then EmptyString else String c (base_symbol r)
  end.

(** [completed_symbols.add(x)] on a set kept in insertion order. *)
Definition py_set_add (x : string) (l : list string) : list string :=
  if existsb (String.eqb x) l then l else l ++ [x].

(** [data[symbol].append(v)]: [KeyError] for a key that [data] lacks. *)
Definition data_append (k : string) (v : pyval) (data : list (string * list pyval))
  : result (list (string * list pyval)) :=
  match od_lookup k data with
  | Some l => Ok (od_set k (l ++ [v]) data)
  | None => Err KeyError
  end.

(** [{symbol: [] for symbol in symbols}]. *)
Definition init_data (symbols : list string) : list (string * list pyval) :=
  fold_left (fun d s => od_set s [] d) symbols [].

Inductive stop_reason : Type := ByTimeout | ByCompletion.

(** How the [while True] loop ends after consuming [n] events: a [break]
    with the collected [data]; still waiting for the next event; or an
    exception. *)
Inductive hist_outcome : Type :=
| HStopped (why : stop_reason) (n : nat) (data : list (string * list pyval))
| HWaiting
| HRaised (e : exn).

Fixpoint hist_loop (symbols : list string) (start_ms : Z) (evs : list candle_ev)
  (n : nat) (data : list (string * list pyval)) (completed : list string)
  : hist_outcome :=
  match evs with
  | [] => HWaiting
  | CandleTimeout :: _ => HStopped ByTimeout (S n) data
  | CandleEv es t c d :: rest =>
      let symbol := base_symbol es in
      if Z.ltb t start_ms then
        let completed' := py_set_add symbol completed in
        if Nat.eqb (List.length completed') (List.length symbols)
        then HStopped ByCompletion (S n) data
        else hist_loop symbols start_ms rest (S n) data completed'
      else if Qeq_bool c 0 then
        let completed' := py_set_add symbol completed in
        if Nat.eqb (List.length completed') (List.length symbols)
        then HStopped ByCompletion (S n) data
        else hist_loop symbols start_ms rest (S n) data completed'
      else
        match data_append symbol d data with
        | Ok data' => hist_loop symbols start_ms rest (S n) data' completed
        | Err e => HRaised e
        end
  end.

Definition download_loop (symbols : list string) (start_ms : Z) (evs : list candle_ev)
  : hist_outcome :=
  hist_loop symbols start_ms evs 0 (init_data symbols) [].

Definition hist_stop (o : hist_outcome) : option (stop_reason * nat) :=
  match o with HStopped why n _ => Some (why, n) | _ => None end.

(** The termination rule in the words of the spec: a candle signals the end
    of its symbol's history when its time precedes the window start or its
    close is zero; the loop ends at the first event that is a silence
    timeout, or after which every requested symbol has signalled. *)
Definition signals (start_ms : Z) (ev : candle_ev) : option string :=
  match ev with
  | CandleEv es t c _ =>
      if Z.ltb t start_ms || Qeq_bool c 0 then Some (base_symbol es) else None
  | CandleTimeout => None
  end.

Definition covers (symbols seen : list string) : bool :=
  forallb (fun x => existsb (String.eqb x) seen) symbols.

Fixpoint spec_stop (symbols : list string) (start_ms : Z) (evs : list candle_ev)
  (seen : list string) (n : nat) : option (stop_reason * nat) :=
  match evs with
  | [] => None
  | CandleTimeout :: _ => Some (ByTimeout, S n)
  | ev :: rest =>
      let seen' := match signals start_ms ev with Some s => s :: seen | None => seen end in
      if covers symbols seen' then Some (ByCompletion, S n)
      else spec_stop symbols start_ms rest seen' (S n)
  end.

(** ** [MarketDataSubscription]: [stop], [cleanup] and [connect] *)

(** [except Exception] catches every exception of the model but
    [CancelledError]: since Python 3.8 [asyncio.CancelledError] derives
    from [BaseException], not from [Exception]. *)
Definition is_Exception (e : exn) : bool :=
  match e with CancelledError => false | _ => true end.

(** The result is [Err CancelledError]. *)
Definition cancels {A} (r : result A) : bool :=
  match r with Err CancelledError => true | _ => false end.

(** The background task running [_listen_for_data].  [lt_ack] is the number
    of event-loop turns the task needs, once [cancel()] has been called, to
    finish: [_listen_for_data] catches the [CancelledError] at its
    [async for] and returns.  Awaiting a finished task returns normally, or
    raises the [CancelledError] that [stop] catches; either way [stop] goes
    on. *)
Record ListenTask : Type := mkListenTask {
  lt_done : bool;
  lt_ack : nat
}.

(** Calls made on the streamer and the task, in order. *)
Inductive sub_ev : Type :=
| EvCancel | EvUnsubscribe | EvStreamerNew | EvAenter | EvSubscribe | EvAexit
| EvCreateTask.

Record Sub : Type := mkSub {
  sub_symbols : list string;
  sub_session : bool;     (* [self.session is not None] *)
  sub_streamer : bool;    (* [self.streamer is not None] *)
  sub_is_running : bool;
  sub_listen_task : option ListenTask;
  sub_log : list sub_ev
}.

(** What the environment and the library calls of [connect] do.  An
    awaited call yields [Err CancelledError] when the task awaiting it is
    cancelled there (for instance by [asyncio.wait_for] timing out). *)
Record StreamEnv : Type := mkStreamEnv {
  client_secret : string;            (* [getenv("TT_OAUTH_CLIENT_SECRET", "")] *)
  refresh_token : string;            (* [getenv("TT_OAUTH_REFRESH_TOKEN", "")] *)
  oauth_session : result unit;       (* [OAuthSession(...)] *)
  dxlink_streamer : result unit;     (* [DXLinkStreamer(self.session)] *)
  streamer_aenter : result unit;     (* [await self.streamer.__aenter__()] *)
  streamer_subscribe : result unit;  (* [await self.streamer.subscribe(...)] *)
  streamer_unsubscribe : result unit;
  streamer_aexit : result unit;
  new_task_ack : nat                 (* [lt_ack] of the task [connect] creates *)
}.

Definition log_ev (e : sub_ev) (s : Sub) : Sub :=
  mkSub (sub_symbols s) (sub_session s) (sub_streamer s) (sub_is_running s)
        (sub_listen_task s) (sub_log s ++ [e]).

Definition set_session (b : bool) (s : Sub) : Sub :=
  mkSub (sub_symbols s) b (sub_streamer s) (sub_is_running s)
        (sub_listen_task s) (sub_log s).

Definition set_streamer (b : bool) (s : Sub) : Sub :=
  mkSub (sub_symbols s) (sub_session s) b (sub_is_running s)
        (sub_listen_task s) (sub_log s).

Definition set_running (b : bool) (s : Sub) : Sub :=
  mkSub (sub_symbols s) (sub_session s) (sub_streamer s) b
        (sub_listen_task s) (sub_log s).

Definition set_task (t : option ListenTask) (s : Sub) : Sub :=
  mkSub (sub_symbols s) (sub_session s) (sub_streamer s) (sub_is_running s)
        t (sub_log s).

Definition is_nil {A} (l : list A) : bool :=
  match l with [] => true | _ => false end.

(** [try: <step> except Exception as e: print(...)]: the handler swallows
    an [Exception]; a [CancelledError] goes through. *)
Definition catch_Exception (rs : result unit * Sub) : result unit * Sub :=
  match rs with
  | (Err e, s) => if is_Exception e then (Ok tt, s) else (Err e, s)
  | r => r
  end.

(** [cleanup]: [__aexit__] when there is a streamer (an [Exception] is
    caught and printed, the [finally] clears the streamer either way), then
    the session is cleared; the outer [try] catches [Exception] only, so a
    [CancelledError] of [__aexit__] leaves the session set. *)
Definition cleanup (env : StreamEnv) (s : Sub) : result unit * Sub :=
  catch_Exception
    (match (if sub_streamer s
            then match catch_Exception (streamer_aexit env, log_ev EvAexit s) with
                 | (r, s1) => (r, set_streamer false s1)
                 end
            else (Ok tt, s)) with
     | (Ok _, s1) => (Ok tt, set_session false s1)
     | (Err e, s1) => (Err e, s1)
     end).

(** [if self.listen_task and not self.listen_task.done(): cancel(); await]
    with [fuel] event-loop turns available: [None] when the task has not
    finished within them. *)
Definition cancel_and_await (fuel : nat) (s : Sub) : option Sub :=
  match sub_listen_task s with
  | Some t =>
      if lt_done t then Some s
      else
        let s' := log_ev EvCancel s in
        if Nat.leb (lt_ack t) fuel
        then Some (set_task (Some (mkListenTask true (lt_ack t))) s')
        else None
  | None => Some s
  end.

(** [stop]: [None] when it has not returned within [fuel] turns.  The
    [unsubscribe] sits in its own [try ... except Exception]; a
    [CancelledError] from it skips [cleanup].  The body sits in
    [try ... except Exception], which lets a [CancelledError] through. *)
Definition stop (fuel : nat) (env : StreamEnv) (s : Sub) : option (result unit * Sub) :=
  let s0 := set_running false s in
  match cancel_and_await fuel s0 with
  | None => None
  | Some s1 =>
      let unsub :=
        if sub_streamer s1 && negb (is_nil (sub_symbols s1))
        then catch_Exception (streamer_unsubscribe env, log_ev EvUnsubscribe s1)
        else (Ok tt, s1) in
      Some (catch_Exception
              (match unsub with
               | (Ok _, s2) => cleanup env s2
               | (Err e, s2) => (Err e, s2)
               end))
  end.

(** The [try] body of [connect] after the stale-streamer check. *)
Definition connect_body (env : StreamEnv) (s : Sub) : result unit * Sub :=
  if String.eqb (client_secret env) "" || String.eqb (refresh_token env) ""
  then (Err ValueError, s)
  else
    match oauth_session env with
    | Err e => (Err e, s)
    | Ok _ =>
        let s := set_session true s in
        if is_nil (sub_symbols s) then (Err ValueError, s)
        else
          match dxlink_streamer env with
          | Err e => (Err e, s)
          | Ok _ =>
              let s := set_streamer true (log_ev EvStreamerNew s) in
              match streamer_aenter env with
              | Err e => (Err e, s)
              | Ok _ =>
                  let s := log_ev EvAenter s in
                  match streamer_subscribe env with
                  | Err e => (Err e, s)
                  | Ok _ =>
                      let s := set_running true (log_ev EvSubscribe s) in
                      (Ok tt, set_task (Some (mkListenTask false (new_task_ack env)))
                                       (log_ev EvCreateTask s))
                  end
              end
          end
    end.

(** [except Exception as e: print(...); await self.cleanup(); raise]: an
    [Exception] runs [cleanup] and is re-raised (unless [cleanup] itself
    raises); a [CancelledError] is not caught and skips [cleanup]. *)
Definition connect_handler (env : StreamEnv) (rs : result unit * Sub)
  : result unit * Sub :=
  match rs with
  | (Err e, s) =>
      if is_Exception e then
        match cleanup env s with
        | (Ok _, s') => (Err e, s')
        | (Err e', s') => (Err e', s')
        end
      else (Err e, s)
  | r => r
  end.

(** [connect]: [None] when the [stop] of a stale streamer has not returned
    within [fuel] turns. *)
Definition connect (fuel : nat) (env : StreamEnv) (s : Sub)
  : option (result unit * Sub) :=
  match (if sub_streamer s then stop fuel env s else Some (Ok tt, s)) with
  | None => None
  | Some (Err e, s1) => Some (connect_handler env (Err e, s1))
  | Some (Ok _, s1) => Some (connect_handler env (connect_body env s1))
  end.


(** The task has finished, or finishes within [fuel] turns of [cancel()]. *)
Definition task_settles (fuel : nat) (s : Sub) : Prop :=
  match sub_listen_task s with
  | Some t => lt_done t = true \/ lt_ack t <= fuel
  | None => True
  end.

Definition env_ok : StreamEnv :=
  mkStreamEnv "secret" "token" (Ok tt) (Ok tt) (Ok tt) (Ok tt) (Ok tt) (Ok tt) 1.






(** A connected subscription whose listen task finishes two turns after
    [cancel()]. *)
Definition sub_live : Sub :=
  mkSub ["SPY"] true true true (Some (mkListenTask false 2)) [].

(** ** Traces of the fetch loops *)

Definition is_call (ev : trace_ev) : bool :=
  match ev with TCall _ _ => true | TSleep _ => false end.

(** The events of [l] with [sep] between each two consecutive ones. *)
Fixpoint sep_by (sep : trace_ev) (l : list trace_ev) : list trace_ev :=
  match l with
  | [] => []
  | [x] => [x]
  | x :: rest => x :: sep :: sep_by sep rest
  end.

(** ** Calls of a batch, candles kept by the backfill loop *)

(** The API calls [_process_symbol_batch] makes for batch [batch_num]:
    one metrics call per chunk, then one market data call per chunk. *)
Definition batch_calls (symbols_list : list string) (symbols_per_batch batch_num : nat)
  : list trace_ev :=
  let chunks := _chunk_symbols (batch_slice symbols_list symbols_per_batch batch_num) 10 in
  map (TCall "get_market_metrics") chunks ++ map (TCall "get_market_data_by_type") chunks.

(** The dump a candle event contributes to [data[s]]: a candle of base
    symbol [s] inside the window with a non-zero close. *)
Definition kept_dump (start_ms : Z) (s : string) (ev : candle_ev) : list pyval :=
  match ev with
  | CandleEv es t c d =>
      if String.eqb (base_symbol es) s && negb (Z.ltb t start_ms || Qeq_bool c 0)
      then [d] else []
  | CandleTimeout => []
  end.

(** ** [MarketDataSubscription.on_candle] *)

(** The attributes of a tastytrade [Candle] event that [on_candle] reads. *)
Record Candle : Type := mkCandle {
  candle_event_symbol : string;
  candle_time : pyval;
  candle_open : pyval;
  candle_high : pyval;
  candle_low : pyval;
  candle_close : pyval;
  candle_volume : pyval;
  candle_bid_volume : pyval;
  candle_ask_volume : pyval;
  candle_imp_volatility : pyval
}.

(** The keys [candle_dict.update] adds, each with the attribute of
    [m_data[0]] it reads.  [rec_dump] is the record's [model_dump()], which
    holds every field of the model, so reading an attribute is a lookup in
    it. *)
Definition on_candle_metric_keys : list (string * string) :=
  [("iv_index", "implied_volatility_index");
   ("iv_index_5_day_change", "implied_volatility_index_5_day_change");
   ("iv_index_rank", "implied_volatility_index_rank");
   ("tos_iv_index_rank", "tos_implied_volatility_index_rank");
   ("tw_iv_index_rank", "tw_implied_volatility_index_rank");
   ("iv_percentile", "implied_volatility_percentile");
   ("liquidity_rating", "liquidity_rating");
   ("beta", "beta");
   ("corr_spy_3month", "corr_spy_3month");
   ("liquidity_value", "liquidity_value");
   ("liquidity_rank", "liquidity_rank")].

(** [candle_dict], after the [if m_data: candle_dict.update({...})]. *)
Definition candle_dict_of (candle_data : Candle) (m_data : list Rec) : pydict :=
  let candle_dict : pydict :=
    [("event_type", VStr "Candle");
     ("event_symbol", VStr (candle_event_symbol candle_data));
     ("time", candle_time candle_data);
     ("open", candle_open candle_data);
     ("high", candle_high candle_data);
     ("low", candle_low candle_data);
     ("close", candle_close candle_data);
     ("volume", candle_volume candle_data);
     ("bid_volume", candle_bid_volume candle_data);
     ("ask_volume", candle_ask_volume candle_data);
     ("imp_volatility", candle_imp_volatility candle_data)] in
  match m_data with
  | [] => candle_dict
  | m0 :: _ =>
      od_update candle_dict
        (map (fun ka => (fst ka, dget (rec_dump m0) (snd ka))) on_candle_metric_keys)
  end.

(** [on_candle]: the metrics call for [[candle_data.event_symbol]], then
    [store_candle_data]; the whole body sits in [try ... except Exception]
    and the [print] has no effect to model. *)
Definition on_candle (api : Api) (candle_data : Candle) : M unit :=
  try_except
    (record_call "get_market_metrics" [candle_event_symbol candle_data] ;;;
     match get_market_metrics api [candle_event_symbol candle_data] with
     | None => raise ApiError
     | Some m_data => store_candle_data api (candle_dict_of candle_data m_data)
     end)
    (fun _ => ret tt).

(** The row [on_candle] inserts into [market_data]: the candle's fields,
    the four converted volume fields [mid], then the eleven metrics fields of
    [m_data[0]] ([None] when [m_data] is empty). *)
Definition candle_row (candle_data : Candle) (mid : list pyval) (m_data : list Rec)
  : list pyval :=
  [VStr "Candle"; VStr (candle_event_symbol candle_data); candle_time candle_data;
   candle_open candle_data; candle_high candle_data; candle_low candle_data;
   candle_close candle_data] ++ mid ++
  match m_data with
  | [] => repeat VNone 11
  | m0 :: _ => map (fun ka => dget (rec_dump m0) (snd ka)) on_candle_metric_keys
  end.

(** ** [MarketDataStore.get_stored_data] and [clear_data] *)

(** [self.market_data]: records by symbol. *)
Definition Store : Type := list (string * list pydict).

(** [d.pop(k, None)] on a dict (its keys are distinct). *)
Fixpoint od_delete {V} (k : string) (d : list (string * V)) : list (string * V) :=
  match d with
  | [] => []
  | (k', v) :: d' => if String.eqb k k' then d' else (k', v) :: od_delete k d'
  end.

(** [symbol: str = None]: [if symbol:] is false for [None] and for [""]. *)
Definition get_stored_data (market_data : Store) (symbol : option string) : Store :=
  match symbol with
  | Some s =>
      if truthy (VStr s)
      then [(s, match od_lookup s market_data with Some l => l | None => [] end)]
      else market_data
  | None => market_data
  end.

Definition clear_data (market_data : Store) (symbol : option string) : Store :=
  match symbol with
  | Some s => if truthy (VStr s) then od_delete s market_data else []
  | None => []
  end.

(** * Proofs *)

(** ** Ordered dictionaries *)

Ltac str_cases :=
  repeat match goal with
  | |- context [String.eqb ?a ?b] => destruct (String.eqb_spec a b); subst
  | H : context [String.eqb ?a ?b] |- _ => destruct (String.eqb_spec a b); subst
  end.

Lemma od_lookup_set {V} (k k' : string) (v : V) d :
  od_lookup k (od_set k' v d) = if String.eqb k k' then Some v else od_lookup k d.
Proof.
  induction d as [|[k1 v1] d IH]; simpl; str_cases; simpl; str_cases;
    try congruence; auto.
Qed.

Lemma od_keys_set {V} (k k' : string) (v : V) d :
  In k (map fst (od_set k' v d)) <-> k = k' \/ In k (map fst d).
Proof.
  induction d as [|[k1 v1] d IH]; simpl; [intuition congruence|].
  str_cases; simpl; rewrite ?IH; intuition congruence.
Qed.

Lemma od_nodup_set {V} (k : string) (v : V) d :
  NoDup (map fst d) -> NoDup (map fst (od_set k v d)).
Proof.
  induction d as [|[k1 v1] d IH]; simpl; intros Hnd.
  - constructor; [auto | constructor].
  - inversion Hnd as [|? ? Hn Hnd']; subst. str_cases; simpl.
    + constructor; assumption.
    + constructor; [|auto]. rewrite od_keys_set. intuition.
Qed.

Lemma od_lookup_in {V} (k : string) (d : list (string * V)) :
  (exists v, od_lookup k d = Some v) <-> In k (map fst d).
Proof.
  induction d as [|[k1 v1] d IH]; simpl.
  - split; [intros [v H]; discriminate | tauto].
  - str_cases.
    + split; [intros _; left; reflexivity | intros _; eauto].
    + rewrite IH. intuition congruence.
Qed.

Lemma od_lookup_notin {V} (k : string) (d : list (string * V)) :
  ~ In k (map fst d) -> od_lookup k d = None.
Proof.
  intros Hn. destruct (od_lookup k d) eqn:E; [|reflexivity].
  exfalso. apply Hn, od_lookup_in. eauto.
Qed.

Lemma od_update_lookup {V} (d e : list (string * V)) k :
  NoDup (map fst e) ->
  od_lookup k (od_update d e) =
  match od_lookup k e with Some v => Some v | None => od_lookup k d end.
Proof.
  unfold od_update. revert d.
  induction e as [|[k1 v1] e IH]; intros d Hnd; simpl; [reflexivity|].
  inversion Hnd as [|? ? Hn Hnd']; subst.
  rewrite IH, od_lookup_set by assumption.
  destruct (String.eqb_spec k k1) as [->|Hne].
  - rewrite od_lookup_notin by assumption. reflexivity.
  - destruct (od_lookup k e); reflexivity.
Qed.

(** ** [_combine_data] *)

Lemma last_dump_app s l r :
  last_dump s (l ++ [r]) =
  if String.eqb s (rec_symbol r) then Some (rec_dump r) else last_dump s l.
Proof. unfold last_dump. rewrite fold_left_app. reflexivity. Qed.

Lemma last_dump_none s l :
  last_dump s l = None <-> ~ In s (map rec_symbol l).
Proof.
  induction l as [|r l IH] using rev_ind; [simpl; tauto|].
  rewrite last_dump_app, map_app, in_app_iff. simpl. str_cases.
  - split; [discriminate | tauto].
  - rewrite IH. intuition.
Qed.

Lemma last_dump_some s l d :
  last_dump s l = Some d -> exists r, In r l /\ rec_symbol r = s /\ rec_dump r = d.
Proof.
  induction l as [|r l IH] using rev_ind; [discriminate|].
  rewrite last_dump_app. str_cases.
  - intros [= <-]. exists r. rewrite in_app_iff. simpl. auto.
  - intros H. destruct (IH H) as [r' (Hin & Hs & Hd)].
    exists r'. rewrite in_app_iff. auto.
Qed.

Lemma last_dump_some_in s l d :
  last_dump s l = Some d -> In s (map rec_symbol l).
Proof.
  intros H. destruct (last_dump_some _ _ _ H) as [r (Hin & <- & _)].
  apply in_map. assumption.
Qed.

Lemma nodup_map_inj {A B} (f : A -> B) l x y :
  NoDup (map f l) -> In x l -> In y l -> f x = f y -> x = y.
Proof.
  induction l as [|a l IH]; simpl; [tauto|].
  intros Hnd Hx Hy Hf. inversion Hnd as [|? ? Hn Hnd']; subst.
  destruct Hx as [<-|Hx], Hy as [<-|Hy]; auto.
  - exfalso. apply Hn. rewrite Hf. apply in_map. assumption.
  - exfalso. apply Hn. rewrite <- Hf. apply in_map. assumption.
Qed.

Lemma last_dump_unique s l r :
  NoDup (map rec_symbol l) -> In r l -> rec_symbol r = s ->
  last_dump s l = Some (rec_dump r).
Proof.
  intros Hnd Hin Hs.
  destruct (last_dump s l) as [d|] eqn:E.
  - destruct (last_dump_some _ _ _ E) as [r' (Hin' & Hs' & <-)].
    rewrite (nodup_map_inj _ _ _ _ Hnd Hin Hin') by congruence. reflexivity.
  - apply last_dump_none in E. exfalso. apply E. rewrite <- Hs. apply in_map. assumption.
Qed.

Definition combine_step1 (cd : Combined) (metric : Rec) : Combined :=
  od_set (rec_symbol metric) (mkCRow (rec_symbol metric) (Some (rec_dump metric)) None) cd.

Definition combine_step2 (cd : Combined) (equity : Rec) : Combined :=
  match od_lookup (rec_symbol equity) cd with
  | Some row =>
      od_set (rec_symbol equity)
             (mkCRow (c_symbol row) (c_metrics row) (Some (rec_dump equity))) cd
  | None =>
      od_set (rec_symbol equity) (mkCRow (rec_symbol equity) None (Some (rec_dump equity))) cd
  end.

Lemma combine_data_unfold metrics market :
  _combine_data metrics market
  = fold_left combine_step2 market (fold_left combine_step1 metrics []).
Proof. reflexivity. Qed.

Lemma combine_phase1_lookup metrics s :
  od_lookup s (fold_left combine_step1 metrics []) =
  match last_dump s metrics with
  | Some dm => Some (mkCRow s (Some dm) None)
  | None => None
  end.
Proof.
  induction metrics as [|r l IH] using rev_ind; [reflexivity|].
  rewrite fold_left_app, last_dump_app. simpl. unfold combine_step1.
  rewrite od_lookup_set. str_cases; [reflexivity | exact IH].
Qed.

Lemma combine_phase2_lookup market d s :
  od_lookup s (fold_left combine_step2 market d) =
  match od_lookup s d, last_dump s market with
  | _, None => od_lookup s d
  | Some row, Some dp => Some (mkCRow (c_symbol row) (c_metrics row) (Some dp))
  | None, Some dp => Some (mkCRow s None (Some dp))
  end.
Proof.
  induction market as [|r l IH] using rev_ind;
    [simpl; destruct (od_lookup s d); reflexivity|].
  rewrite fold_left_app, last_dump_app. simpl. unfold combine_step2 at 1.
  destruct (od_lookup (rec_symbol r) (fold_left combine_step2 l d)) as [row|] eqn:E;
    rewrite od_lookup_set; str_cases; try exact IH.
  - rewrite IH in E. destruct (od_lookup (rec_symbol r) d) as [row0|];
      destruct (last_dump (rec_symbol r) l); inversion E; subst; reflexivity.
  - rewrite IH in E. destruct (od_lookup (rec_symbol r) d) as [row0|];
      destruct (last_dump (rec_symbol r) l); inversion E; reflexivity.
Qed.

Lemma combine_nodup metrics market :
  NoDup (map fst (_combine_data metrics market)).
Proof.
  rewrite combine_data_unfold.
  assert (H1 : forall d, NoDup (map fst d) ->
                NoDup (map fst (fold_left combine_step1 metrics d))).
  { induction metrics as [|r l IH]; intros d Hd; simpl; [exact Hd|].
    apply IH. unfold combine_step1. apply od_nodup_set. exact Hd. }
  specialize (H1 [] (NoDup_nil _)).
  revert H1. generalize (fold_left combine_step1 metrics []).
  induction market as [|r l IH]; intros d Hd; simpl; [exact Hd|].
  apply IH. unfold combine_step2. destruct (od_lookup _ d); apply od_nodup_set; exact Hd.
Qed.

Lemma combine_lookup metrics market s :
  od_lookup s (_combine_data metrics market) =
  match last_dump s metrics, last_dump s market with
  | None, None => None
  | m, p => Some (mkCRow s m p)
  end.
Proof.
  rewrite combine_data_unfold, combine_phase2_lookup, combine_phase1_lookup.
  destruct (last_dump s metrics), (last_dump s market); reflexivity.
Qed.

(** ** The monad *)

Ltac monad_simpl :=
  unfold bind, ret, raise, try_except, sleep, record_call in *; simpl in *.

(** ** Fetch loops *)

Lemma fetch_loop_ok name call dl n i chunks acc w :
  exists w',
    fetch_loop name call dl n i chunks acc w = (Ok (acc ++ successes call chunks), w') /\
    w_rows w' = w_rows w.
Proof.
  revert i acc w. induction chunks as [|ch rest IH]; intros i acc w.
  - exists w. simpl. rewrite app_nil_r. split; reflexivity.
  - change (successes call (ch :: rest))
      with ((match call ch with Some d => d | None => [] end) ++ successes call rest).
    simpl. unfold bind at 1, try_except, bind, record_call. simpl.
    destruct (call ch) as [data|] eqn:Ec.
    + destruct (Nat.ltb i n && Qpos_b dl); monad_simpl;
        match goal with
        | |- exists w', fetch_loop _ _ _ _ _ _ _ ?w0 = _ /\ _ =>
            destruct (IH (S i) (acc ++ data) w0) as [w' [E R]]
        end;
        exists w'; rewrite E, <- app_assoc; exact (conj eq_refl R).
    + monad_simpl.
      destruct (IH (S i) acc (mkWorld (w_trace w ++ [TCall name ch]) (w_rows w)))
        as [w' [E R]].
      exists w'. rewrite E. split; [reflexivity | exact R].
Qed.

Lemma successes_wf (api : Api) (is_m : bool) chunks :
  api_wf api ->
  Forall (fun r => wf_dump (rec_dump r) = true)
    (successes (if is_m then get_market_metrics api else get_market_data_by_type api) chunks).
Proof.
  intros Hwf. unfold successes. induction chunks as [|ch rest IH]; simpl; [constructor|].
  apply Forall_app. split; [|exact IH].
  destruct is_m;
    [destruct (get_market_metrics api ch) eqn:E|destruct (get_market_data_by_type api ch) eqn:E];
    try constructor; eapply Hwf; eauto.
Qed.

(** ** Storing rows *)

Lemma sequence_ok (l : list (result pyval)) :
  Forall (fun r => exists v, r = Ok v) l -> exists vs, sequence l = Ok vs.
Proof.
  induction 1 as [|r l [v ->] _ [vs IH]]; [exists []; reflexivity|].
  exists (v :: vs). simpl. rewrite IH. reflexivity.
Qed.

Lemma none_or_float_num api v :
  numeric_or_none v = true -> exists v', none_or_float api v = Ok v'.
Proof. destruct v; simpl; try discriminate; eauto. Qed.

Lemma none_or_int_num api v :
  numeric_or_none v = true -> exists v', none_or_int api v = Ok v'.
Proof. destruct v; simpl; try discriminate; eauto. Qed.

Lemma mget_num m k :
  wf_opt m = true -> In k numeric_source_keys -> numeric_or_none (mget m k) = true.
Proof.
  destruct m as [d|]; [|reflexivity]. intros Hwf Hk.
  unfold wf_opt in Hwf. unfold mget.
  destruct (truthy (VDict d)); [|reflexivity].
  unfold wf_dump in Hwf. rewrite forallb_forall in Hwf. apply Hwf, Hk.
Qed.

Lemma metric_params_fallback api s :
  metric_params api [("symbol", VStr s)] = Ok (VStr s :: repeat VNone 18).
Proof. reflexivity. Qed.

Ltac dget_lit :=
  cbn [dget od_lookup String.eqb Ascii.eqb Bool.eqb andb fst snd].

Ltac num_col :=
  cbv beta; dget_lit;
  match goal with
  | |- exists v, none_or_float _ _ = Ok v =>
      apply none_or_float_num, mget_num; [assumption | simpl; tauto]
  | |- exists v, none_or_int _ _ = Ok v =>
      apply none_or_int_num, mget_num; [assumption | simpl; tauto]
  | |- exists v, Ok _ = Ok v => eexists; reflexivity
  end.

Lemma metric_params_row_ok api s row :
  wf_opt (c_metrics row) = true -> wf_opt (c_market_data row) = true ->
  exists ps, metric_params api (metrics_dict_of s row) = Ok ps.
Proof.
  intros Hm Hp. unfold metrics_dict_of.
  destruct (build_metrics_dict s row) as [d|e] eqn:E.
  - unfold build_metrics_dict in E.
    set (m := c_metrics row) in *. set (md := c_market_data row) in *.
    set (earnings := mget m "earnings") in *.
    destruct (truthy earnings);
      [destruct (py_get earnings "expected_report_date"); simpl in E; [|discriminate];
       destruct (py_get earnings "time_of_day"); simpl in E; [|discriminate]
      |simpl in E];
      injection E as <-; unfold metric_params; apply sequence_ok;
      repeat constructor; num_col.
  - rewrite metric_params_fallback. eauto.
Qed.

Lemma store_rows_ok api rows w :
  Forall (fun row => exists ps, row_params_ok api row ps) rows ->
  exists pss,
    Forall2 (row_params_ok api) rows pss /\
    store_rows api rows w
      = (Ok tt, mkWorld (w_trace w) (w_rows w ++ accepted_rows api pss)).
Proof.
  unfold accepted_rows.
  intros H. revert w. induction H as [|[s row] rows [ps Hps] _ IH]; intros w.
  - exists []. split; [constructor|]. simpl. rewrite app_nil_r. destruct w; reflexivity.
  - unfold row_params_ok in Hps. simpl in Hps.
    simpl. unfold bind at 1, store_metric_data. rewrite Hps.
    unfold try_except, db_insert.
    destruct (execute_query api "equity_data" ps) eqn:Edb; simpl.
    + destruct (IH (mkWorld (w_trace w) (w_rows w ++ [("equity_data", ps)])))
        as [pss [HF E]].
      exists (ps :: pss). split; [constructor; assumption|].
      rewrite E. simpl. rewrite Edb. simpl. rewrite <- app_assoc. reflexivity.
    + destruct (IH w) as [pss [HF E]].
      exists (ps :: pss). split; [constructor; assumption|].
      unfold ret. rewrite E. simpl. rewrite Edb. reflexivity.
Qed.

Lemma nodup_in_lookup {V} (k : string) (v : V) d :
  NoDup (map fst d) -> In (k, v) d -> od_lookup k d = Some v.
Proof.
  induction d as [|[k1 v1] d IH]; simpl; [tauto|].
  intros Hnd [E|Hin]; inversion Hnd as [|? ? Hn Hnd']; subst.
  - injection E as -> ->. rewrite String.eqb_refl. reflexivity.
  - destruct (String.eqb_spec k k1) as [->|]; [|auto].
    exfalso. apply Hn. change k1 with (fst (k1, v)). apply in_map. assumption.
Qed.

Lemma last_dump_wf s l :
  Forall (fun r => wf_dump (rec_dump r) = true) l -> wf_opt (last_dump s l) = true.
Proof.
  intros H. destruct (last_dump s l) eqn:E; [|reflexivity].
  destruct (last_dump_some _ _ _ E) as [r (Hin & _ & <-)].
  rewrite Forall_forall in H. apply H, Hin.
Qed.

Lemma combine_rows_wf metrics market :
  Forall (fun r => wf_dump (rec_dump r) = true) metrics ->
  Forall (fun r => wf_dump (rec_dump r) = true) market ->
  Forall (fun row => wf_opt (c_metrics (snd row)) = true /\
                     wf_opt (c_market_data (snd row)) = true)
         (_combine_data metrics market).
Proof.
  intros Hm Hp. apply Forall_forall. intros [s row] Hin.
  apply nodup_in_lookup in Hin; [|apply combine_nodup].
  rewrite combine_lookup in Hin.
  assert (Hrow : row = mkCRow s (last_dump s metrics) (last_dump s market)).
  { destruct (last_dump s metrics), (last_dump s market); congruence. }
  subst row. simpl. split; apply last_dump_wf; assumption.
Qed.

(** ** Batches *)

Lemma process_symbol_batch_ok api batch dc w :
  api_wf api ->
  exists w' pss,
    _process_symbol_batch api batch dc w = (Ok (batch_combined api batch), w') /\
    Forall2 (row_params_ok api) (batch_combined api batch) pss /\
    w_rows w' = w_rows w ++ accepted_rows api pss.
Proof.
  intros Hwf. unfold _process_symbol_batch, _fetch_metrics_in_batches,
    _fetch_market_data_in_batches.
  destruct (fetch_loop_ok "get_market_metrics" (get_market_metrics api) dc
              (List.length (_chunk_symbols batch 10)) 1 (_chunk_symbols batch 10) [] w)
    as [w1 [E1 R1]].
  unfold bind at 1. rewrite E1. simpl.
  destruct (fetch_loop_ok "get_market_data_by_type" (get_market_data_by_type api) dc
              (List.length (_chunk_symbols batch 10)) 1 (_chunk_symbols batch 10) [] w1)
    as [w2 [E2 R2]].
  unfold bind at 1. rewrite E2. simpl.
  destruct (store_rows_ok api (batch_combined api batch) w2) as [pss [HF E3]].
  { pose proof (combine_rows_wf _ _ (successes_wf api true (_chunk_symbols batch 10) Hwf)
                                    (successes_wf api false (_chunk_symbols batch 10) Hwf))
      as Hrows.
    eapply Forall_impl; [|exact Hrows]. intros [s row] [Hm Hp].
    apply metric_params_row_ok; assumption. }
  exists (mkWorld (w_trace w2) (w_rows w2 ++ accepted_rows api pss)), pss.
  unfold batch_combined in *. unfold bind. rewrite E3. simpl.
  split; [reflexivity|]. split; [exact HF|]. rewrite R2, R1. reflexivity.
Qed.

Lemma od_update_keys {V} (d e : list (string * V)) k :
  In k (map fst (od_update d e)) <-> In k (map fst d) \/ In k (map fst e).
Proof.
  unfold od_update. revert d.
  induction e as [|[k1 v1] e IH]; intros d; simpl; [tauto|].
  rewrite IH, od_keys_set. intuition congruence.
Qed.

Lemma batch_combined_symbol api batch k row :
  od_lookup k (batch_combined api batch) = Some row -> c_symbol row = k.
Proof.
  unfold batch_combined. rewrite combine_lookup.
  destruct (last_dump _ _), (last_dump _ _); intros H; inversion H; reflexivity.
Qed.

Lemma batch_loop_ok api syms p nb dc db nums acc w :
  api_wf api ->
  (forall k row, od_lookup k acc = Some row -> c_symbol row = k) ->
  exists all w',
    batch_loop api syms p nb dc db nums acc w = (Ok all, w') /\
    (forall k, In k (map fst acc) -> In k (map fst all)) /\
    (forall b k, In b nums ->
       In k (map fst (batch_combined api (batch_slice syms p b))) ->
       In k (map fst all)) /\
    (forall k row, od_lookup k all = Some row -> c_symbol row = k).
Proof.
  intros Hwf. revert acc w.
  induction nums as [|b nums IH]; intros acc w Hacc.
  - exists acc, w. simpl. repeat split; auto. intros b k [].
  - simpl. destruct (process_symbol_batch_ok api (batch_slice syms p b) dc w Hwf)
      as [w1 [pss [E1 _]]].
    unfold bind at 1. rewrite E1.
    set (acc' := od_update acc (batch_combined api (batch_slice syms p b))).
    assert (Hacc' : forall k row, od_lookup k acc' = Some row -> c_symbol row = k).
    { intros k row. unfold acc'. rewrite od_update_lookup by (apply combine_nodup).
      destruct (od_lookup k (batch_combined _ _)) eqn:Eb.
      - intros [= <-]. eapply batch_combined_symbol; eassumption.
      - apply Hacc. }
    destruct (Nat.ltb b (nb - 1) && Qpos_b db); monad_simpl;
      match goal with
      | |- exists all w', batch_loop _ _ _ _ _ _ _ _ ?w0 = _ /\ _ =>
          destruct (IH acc' w0 Hacc') as [all [w' (E & Hk1 & Hk2 & Hk3)]]
      end;
      exists all, w'; (split; [exact E|]); (split; [|split; [|exact Hk3]]);
      [ intros k Hk; apply Hk1; unfold acc'; apply od_update_keys; auto
      | intros b' k [<-|Hb] Hk;
        [apply Hk1; unfold acc'; apply od_update_keys; auto | eapply Hk2; eauto]
      | intros k Hk; apply Hk1; unfold acc'; apply od_update_keys; auto
      | intros b' k [<-|Hb] Hk;
        [apply Hk1; unfold acc'; apply od_update_keys; auto | eapply Hk2; eauto]].
Qed.

Lemma successes_in (call : list string -> option (list Rec)) chunks ch recs r :
  In ch chunks -> call ch = Some recs -> In r recs -> In r (successes call chunks).
Proof.
  intros Hch Hc Hr. unfold successes. apply in_concat.
  exists recs. split; [|exact Hr].
  apply in_map_iff. exists ch. rewrite Hc. auto.
Qed.

Lemma combine_keys_in metrics market s :
  In s (map rec_symbol metrics) \/ In s (map rec_symbol market) ->
  In s (map fst (_combine_data metrics market)).
Proof.
  intros H. apply od_lookup_in. rewrite combine_lookup.
  destruct (last_dump s metrics) eqn:E1, (last_dump s market) eqn:E2; eauto.
  apply last_dump_none in E1, E2. tauto.
Qed.

Lemma batch_loop_nil api syms p nb dc db nums acc w :
  api_wf api ->
  (forall batch, batch_combined api batch = []) ->
  exists w', batch_loop api syms p nb dc db nums acc w = (Ok acc, w').
Proof.
  intros Hwf Hnil. revert w.
  induction nums as [|b nums IH]; intros w; [exists w; reflexivity|].
  simpl. destruct (process_symbol_batch_ok api (batch_slice syms p b) dc w Hwf)
    as [w1 [pss [E1 _]]].
  unfold bind at 1. rewrite E1, Hnil. simpl.
  destruct (Nat.ltb b (nb - 1) && Qpos_b db); monad_simpl; apply IH.
Qed.

Lemma successes_none (call : list string -> option (list Rec)) chunks :
  (forall ch, call ch = None) -> successes call chunks = [].
Proof.
  intros H. unfold successes. induction chunks as [|ch rest IH]; [reflexivity|].
  simpl. rewrite H. exact IH.
Qed.

Lemma recs_of_wf chunk : Forall (fun r => wf_dump (rec_dump r) = true) (recs_of chunk).
Proof. unfold recs_of. apply Forall_map, Forall_forall. intros; reflexivity. Qed.

Lemma api_cd_fails_wf : api_wf api_cd_fails.
Proof.
  intros ch recs [H|H]; simpl in H;
    [destruct (list_eq_dec string_dec ch ["C"; "D"]); [discriminate|]|];
    injection H as <-; apply recs_of_wf.
Qed.

(** ** Insert parameters, column by column *)

Lemma metric_params_columns api d :
  metric_params api d = sequence (map (metric_column api d) equity_data_columns).
Proof. reflexivity. Qed.

Lemma candle_params_columns api d :
  candle_params api d = sequence (map (candle_column api d) market_data_columns).
Proof. reflexivity. Qed.

Lemma sequence_map_forall2 {C} (h : C -> result pyval) (P : C -> pyval -> Prop) cols ps :
  (forall c v, h c = Ok v -> P c v) ->
  sequence (map h cols) = Ok ps -> Forall2 P cols ps.
Proof.
  intros HP. revert ps. induction cols as [|c cols IH]; intros ps; simpl.
  - intros [= <-]. constructor.
  - destruct (h c) as [v|e] eqn:Eh; simpl; [|discriminate].
    destruct (sequence (map h cols)) as [vs|e] eqn:Es; simpl; [|discriminate].
    intros [= <-]. constructor; [apply HP, Eh | apply IH; reflexivity].
Qed.

Lemma none_or_float_spec api v v' :
  none_or_float api v = Ok v' ->
  (v = VNone -> v' = VNone) /\ (v <> VNone -> exists q, v' = VFloat q).
Proof.
  destruct v; simpl;
    try (intros [= <-]; split; [intros; discriminate| eauto]);
    try (intros [= <-]; split; [reflexivity | intros []; reflexivity]);
    try discriminate.
  destruct (str_to_float api s); [|discriminate].
  intros [= <-]. split; [intros; discriminate | eauto].
Qed.

Lemma none_or_int_spec api v v' :
  none_or_int api v = Ok v' ->
  (v = VNone -> v' = VNone) /\ (v <> VNone -> exists z, v' = VInt z).
Proof.
  destruct v; simpl;
    try (intros [= <-]; split; [intros; discriminate| eauto]);
    try (intros [= <-]; split; [reflexivity | intros []; reflexivity]);
    try discriminate.
  destruct (str_to_int api s); [|discriminate].
  intros [= <-]. split; [intros; discriminate | eauto].
Qed.

Lemma metric_column_ok api d c v :
  metric_column api d c = Ok v -> column_ok d c v.
Proof.
  unfold metric_column, column_ok. destruct c as [k [| |]]; simpl.
  - intros [= <-]. split; auto.
  - apply none_or_float_spec.
  - apply none_or_int_spec.
Qed.

Lemma dsub_dget d k v : dsub d k = Ok v -> dget d k = v.
Proof. unfold dsub, dget. destruct (od_lookup k d); congruence. Qed.

Lemma candle_column_ok api d c v :
  candle_column api d c = Ok v -> column_ok d c v.
Proof.
  unfold candle_column, column_ok. destruct c as [k [| |]]; simpl.
  - intros [= <-]. split; auto.
  - destruct (dsub d k) as [x|] eqn:E; simpl; [|discriminate].
    apply dsub_dget in E. rewrite E. apply none_or_float_spec.
  - destruct (dsub d k) as [x|] eqn:E; simpl; [|discriminate].
    apply dsub_dget in E. rewrite E. apply none_or_int_spec.
Qed.

(** ** Historical backfill loop *)

Lemma covers_incl symbols seen : covers symbols seen = true <-> incl symbols seen.
Proof.
  unfold covers. rewrite forallb_forall. split.
  - intros H x Hx. specialize (H x Hx). apply existsb_exists in H.
    destruct H as [y [Hy E]]. apply String.eqb_eq in E. subst. exact Hy.
  - intros H x Hx. apply existsb_exists. exists x. split; [apply H, Hx | apply String.eqb_refl].
Qed.

Lemma py_set_add_in x y l : In y (py_set_add x l) <-> y = x \/ In y l.
Proof.
  unfold py_set_add. destruct (existsb (String.eqb x) l) eqn:E.
  - apply existsb_exists in E. destruct E as [z [Hz Ez]]. apply String.eqb_eq in Ez.
    subst. intuition congruence.
  - rewrite in_app_iff. simpl. intuition.
Qed.

Lemma py_set_add_nodup x l : NoDup l -> NoDup (py_set_add x l).
Proof.
  intros H. unfold py_set_add. destruct (existsb (String.eqb x) l) eqn:E; [exact H|].
  apply NoDup_app; [exact H | constructor; [intros [] | constructor] |].
  intros y Hy [-> | []]. assert (existsb (String.eqb y) l = true) as E'.
  { apply existsb_exists. exists y. split; [exact Hy | apply String.eqb_refl]. }
  congruence.
Qed.

Lemma length_eqb_covers symbols c seen :
  NoDup symbols -> NoDup c -> incl c symbols -> (forall x, In x c <-> In x seen) ->
  Nat.eqb (List.length c) (List.length symbols) = covers symbols seen.
Proof.
  intros Hs Hc Hinc Hcs.
  assert (Hcov : covers symbols seen = true <-> incl symbols c).
  { rewrite covers_incl. split; intros H x Hx; apply Hcs; auto; apply H, Hx. }
  destruct (covers symbols seen) eqn:E.
  - apply Nat.eqb_eq. apply Nat.le_antisymm.
    + apply NoDup_incl_length; assumption.
    + apply NoDup_incl_length; [assumption | apply Hcov; reflexivity].
  - apply Nat.eqb_neq. intros Hl. assert (incl symbols c) as Hi.
    { apply NoDup_length_incl; [assumption | lia | assumption]. }
    apply Hcov in Hi. discriminate.
Qed.

Lemma init_data_keys symbols s :
  In s symbols -> exists l, od_lookup s (init_data symbols) = Some l.
Proof.
  unfold init_data.
  assert (G : forall d, (In s symbols \/ exists l, od_lookup s d = Some l) ->
             exists l, od_lookup s (fold_left (fun d s => od_set s (@nil pyval) d) symbols d) = Some l).
  { induction symbols as [|x xs IH]; simpl; intros d [H | H].
    - destruct H.
    - exact H.
    - apply IH. destruct H as [<- | H]; [right | left; exact H].
      rewrite od_lookup_set, String.eqb_refl. eauto.
    - apply IH. right. rewrite od_lookup_set. destruct (String.eqb s x); eauto. }
  intros H. apply G. left. exact H.
Qed.

Lemma data_append_keys symbols k v data :
  (forall s, In s symbols -> exists l, od_lookup s data = Some l) -> In k symbols ->
  exists data', data_append k v data = Ok data' /\
                forall s, In s symbols -> exists l, od_lookup s data' = Some l.
Proof.
  intros Hd Hk. unfold data_append. destruct (Hd k Hk) as [l Hl]. rewrite Hl.
  eexists. split; [reflexivity|]. intros s Hs. rewrite od_lookup_set.
  destruct (String.eqb s k); eauto.
Qed.

Lemma hist_loop_spec symbols start_ms evs : forall n data completed seen,
  NoDup symbols -> NoDup completed -> incl completed symbols ->
  (forall x, In x completed <-> In x seen) ->
  (forall s, In s symbols -> exists l, od_lookup s data = Some l) ->
  (symbols = [] \/ covers symbols seen = false) ->
  (forall es t c d, In (CandleEv es t c d) evs -> In (base_symbol es) symbols) ->
  hist_stop (hist_loop symbols start_ms evs n data completed)
    = spec_stop symbols start_ms evs seen n /\
  (forall e, hist_loop symbols start_ms evs n data completed <> HRaised e).
Proof.
  induction evs as [|ev evs IH]; intros n data completed seen Hs Hc Hinc Hcs Hd Hcov Hevs.
  - split; [reflexivity | discriminate].
  - destruct ev as [|es t c d]; [split; [reflexivity | discriminate]|].
    assert (Hb : In (base_symbol es) symbols) by (apply (Hevs es t c d); left; reflexivity).
    assert (Hevs' : forall es t c d, In (CandleEv es t c d) evs -> In (base_symbol es) symbols)
      by (intros; eapply Hevs; right; eassumption).
    assert (Hsig : forall c', NoDup c' -> incl c' symbols ->
              (forall x, In x c' <-> In x (base_symbol es :: seen)) ->
              c' = py_set_add (base_symbol es) completed ->
              hist_stop (if Nat.eqb (List.length c') (List.length symbols)
                         then HStopped ByCompletion (S n) data
                         else hist_loop symbols start_ms evs (S n) data c')
              = (if covers symbols (base_symbol es :: seen) then Some (ByCompletion, S n)
                 else spec_stop symbols start_ms evs (base_symbol es :: seen) (S n)) /\
              (forall e, (if Nat.eqb (List.length c') (List.length symbols)
                         then HStopped ByCompletion (S n) data
                         else hist_loop symbols start_ms evs (S n) data c') <> HRaised e)).
    { intros c' Hnd Hi Hx _. rewrite (length_eqb_covers symbols c' (base_symbol es :: seen));
        try assumption.
      destruct (covers symbols (base_symbol es :: seen)) eqn:E.
      - split; [reflexivity | discriminate].
      - apply IH; auto. }
    assert (Hnd' : NoDup (py_set_add (base_symbol es) completed)) by (apply py_set_add_nodup, Hc).
    assert (Hi' : incl (py_set_add (base_symbol es) completed) symbols).
    { intros x Hx. apply py_set_add_in in Hx. destruct Hx as [-> | Hx]; auto. }
    assert (Hx' : forall x, In x (py_set_add (base_symbol es) completed) <->
                            In x (base_symbol es :: seen)).
    { intros x. rewrite py_set_add_in, Hcs. simpl. intuition. }
    simpl. destruct (Z.ltb t start_ms); simpl.
    + apply Hsig; auto.
    + destruct (Qeq_bool c 0); simpl.
      * apply Hsig; auto.
      * destruct (data_append_keys symbols (base_symbol es) d data Hd Hb) as [data' [-> Hd']].
        destruct Hcov as [E | E]; [rewrite E in Hb; destruct Hb|].
        rewrite E. apply IH; auto.
Qed.

(** ** Subscription lifecycle *)

Lemma is_Exception_false e : is_Exception e = false -> e = CancelledError.
Proof. destruct e; simpl; congruence. Qed.

Lemma cancels_true {A} (r : result A) : cancels r = true -> r = Err CancelledError.
Proof. destruct r as [a|[]]; simpl; congruence. Qed.

Lemma catch_Exception_spec r s :
  catch_Exception (r, s) = (if cancels r then (Err CancelledError, s) else (Ok tt, s)).
Proof. destruct r as [[]|[]]; reflexivity. Qed.

Lemma cleanup_spec env s r s' :
  cleanup env s = (r, s') ->
  sub_streamer s' = false /\ sub_is_running s' = sub_is_running s /\
  sub_listen_task s' = sub_listen_task s /\ sub_symbols s' = sub_symbols s /\
  sub_log s' = sub_log s ++ (if sub_streamer s then [EvAexit] else []) /\
  ((r = Ok tt /\ sub_session s' = false) \/
   (r = Err CancelledError /\ sub_streamer s = true /\
    cancels (streamer_aexit env) = true /\ sub_session s' = sub_session s)).
Proof.
  unfold cleanup. destruct (sub_streamer s) eqn:Est.
  - rewrite catch_Exception_spec.
    destruct (cancels (streamer_aexit env)) eqn:Ec; simpl; intros [= <- <-]; simpl;
      (split; [reflexivity|]); (split; [reflexivity|]); (split; [reflexivity|]);
      (split; [reflexivity|]); (split; [reflexivity|]); auto.
  - simpl. intros [= <- <-]. simpl. rewrite Est, app_nil_r.
    repeat split; auto.
Qed.

Lemma cancel_and_await_spec fuel s :
  (cancel_and_await fuel s <> None <-> task_settles fuel s) /\
  forall s', cancel_and_await fuel s = Some s' ->
    sub_is_running s' = sub_is_running s /\ sub_streamer s' = sub_streamer s /\
    sub_session s' = sub_session s /\ sub_symbols s' = sub_symbols s /\
    (exists mid, sub_log s' = sub_log s ++ mid) /\
    match sub_listen_task s' with Some t => lt_done t = true | None => True end.
Proof.
  unfold cancel_and_await, task_settles.
  destruct (sub_listen_task s) as [[d k]|] eqn:Et; simpl.
  - destruct d; simpl.
    + split; [split; [auto | congruence]|]. intros s' [= <-]. rewrite Et.
      repeat split; auto. exists []. rewrite app_nil_r. reflexivity.
    + destruct (Nat.leb k fuel) eqn:Ek.
      * apply Nat.leb_le in Ek. split; [split; [auto | congruence]|].
        intros s' [= <-]. simpl. repeat split; auto. eexists. reflexivity.
      * apply Nat.leb_gt in Ek. split; [|discriminate].
        split; [congruence|]. intros [H | H]; [discriminate | lia].
  - split; [split; [auto | congruence]|]. intros s' [= <-]. rewrite Et.
    repeat split; auto. exists []. rewrite app_nil_r. reflexivity.
Qed.

Lemma stop_spec fuel env s :
  (stop fuel env s <> None <-> task_settles fuel s) /\
  forall r s', stop fuel env s = Some (r, s') ->
    sub_is_running s' = false /\ sub_symbols s' = sub_symbols s /\
    (exists mid, sub_log s' = sub_log s ++ mid) /\
    match sub_listen_task s' with Some t => lt_done t = true | None => True end /\
    ((r = Ok tt /\ sub_streamer s' = false /\ sub_session s' = false /\
      (sub_streamer s = true -> last (sub_log s') EvCancel = EvAexit)) \/
     (r = Err CancelledError /\
      (cancels (streamer_unsubscribe env) = true \/ cancels (streamer_aexit env) = true))).
Proof.
  destruct (cancel_and_await_spec fuel (set_running false s)) as [Hiff Hs].
  unfold stop.
  assert (task_settles fuel (set_running false s) <-> task_settles fuel s) as Ht
    by (unfold task_settles; reflexivity).
  destruct (cancel_and_await fuel (set_running false s)) as [s1|] eqn:E.
  2: { split; [split; [congruence | intros H; apply Ht, Hiff in H; congruence]|].
       discriminate. }
  split; [split; [intros _; apply Ht, Hiff; discriminate | discriminate]|].
  destruct (Hs s1 eq_refl) as (Hr1 & Hst1 & _ & Hy1 & [mid1 Hl1] & Hd1).
  simpl in Hr1, Hst1, Hy1, Hl1.
  assert (Hu : exists ru s2,
    (if sub_streamer s1 && negb (is_nil (sub_symbols s1))
     then catch_Exception (streamer_unsubscribe env, log_ev EvUnsubscribe s1)
     else (Ok tt, s1)) = (ru, s2) /\
    sub_is_running s2 = false /\ sub_streamer s2 = sub_streamer s1 /\
    sub_symbols s2 = sub_symbols s1 /\ sub_listen_task s2 = sub_listen_task s1 /\
    (exists mid, sub_log s2 = sub_log s1 ++ mid) /\
    (ru = Ok tt \/ (ru = Err CancelledError /\ cancels (streamer_unsubscribe env) = true))).
  { destruct (sub_streamer s1 && negb (is_nil (sub_symbols s1))).
    - rewrite catch_Exception_spec.
      destruct (cancels (streamer_unsubscribe env)) eqn:Ec; do 2 eexists;
        (split; [reflexivity|]); simpl; repeat split; auto; eexists; reflexivity.
    - do 2 eexists. split; [reflexivity|]. repeat split; auto.
      exists []. rewrite app_nil_r. reflexivity. }
  destruct Hu as (ru & s2 & Eu & Hr2 & Hst2 & Hy2 & Ht2 & [mid2 Hl2] & Hru).
  rewrite Eu. intros r s' H. injection H as H.
  destruct Hru as [-> | [-> Hc]].
  - destruct (cleanup env s2) as [rc s3] eqn:Ec.
    destruct (cleanup_spec env s2 rc s3 Ec) as (C1 & C2 & C3 & C4 & C5 & C6).
    rewrite catch_Exception_spec in H.
    assert (Hs3 : sub_is_running s3 = false /\ sub_symbols s3 = sub_symbols s /\
              (exists mid, sub_log s3 = sub_log s ++ mid) /\
              match sub_listen_task s3 with Some t => lt_done t = true | None => True end).
    { rewrite C2, C3, C4, C5, Hr2, Ht2, Hy2, Hy1, Hl2, Hl1.
      split; [reflexivity|]. split; [reflexivity|]. split; [|exact Hd1].
      eexists. rewrite <- !app_assoc. reflexivity. }
    destruct Hs3 as (S1 & S2 & S3 & S4).
    destruct C6 as [[-> Hse] | (-> & _ & Hca & _)]; simpl in H; injection H as <- <-;
      (split; [exact S1|]); (split; [exact S2|]); (split; [exact S3|]);
      (split; [exact S4|]).
    + left. split; [reflexivity|]. split; [exact C1|]. split; [exact Hse|].
      intros Hst. rewrite C5, Hst2, Hst1, Hst. apply last_last.
    + right. split; [reflexivity|]. right. exact Hca.
  - simpl in H. injection H as <- <-.
    rewrite Hr2, Hy2, Hy1, Hl2, Hl1, Ht2.
    split; [reflexivity|]. split; [reflexivity|].
    split; [eexists; rewrite <- app_assoc; reflexivity|]. split; [exact Hd1|].
    right. split; [reflexivity|]. left. exact Hc.
Qed.






(** ** Chunking *)

Section Chunking.

Variable l : list string.
Variable c : nat.
Hypothesis Hc : 0 < c.

Lemma range_aux_concat (fuel i : nat) :
  List.length l - i <= fuel ->
  List.concat (map (fun j => py_slice l j (j + c)) (range_aux fuel i (List.length l) c))
  = skipn i l.
Proof.
  revert i; induction fuel as [|f IH]; intros i Hf; simpl.
  - rewrite skipn_all2; [reflexivity | lia].
  - destruct (Nat.ltb_spec i (List.length l)) as [Hlt | Hge]; simpl.
    + rewrite IH by lia. unfold py_slice.
      replace (i + c - i) with c by lia.
      rewrite Nat.add_comm, <- skipn_skipn. apply firstn_skipn.
    + rewrite skipn_all2; [reflexivity | lia].
Qed.

Lemma range_aux_length (fuel i : nat) :
  List.length l - i <= fuel ->
  List.length (range_aux fuel i (List.length l) c)
  = (List.length l - i + c - 1) / c.
Proof.
  revert i; induction fuel as [|f IH]; intros i Hf; simpl.
  - replace (List.length l - i) with 0 by lia.
    rewrite Nat.div_small; lia.
  - destruct (Nat.ltb_spec i (List.length l)) as [Hlt | Hge]; simpl.
    + rewrite IH by lia.
      replace (List.length l - i + c - 1) with (1 * c + (List.length l - i - 1)) by lia.
      rewrite Nat.div_add_l by lia.
      destruct (Nat.le_gt_cases c (List.length l - i)) as [Hle | Hgt].
      * replace (List.length l - (i + c) + c - 1) with (List.length l - i - 1) by lia.
        reflexivity.
      * rewrite (Nat.div_small (List.length l - (i + c) + c - 1)) by lia.
        rewrite (Nat.div_small (List.length l - i - 1)) by lia. lia.
    + replace (List.length l - i) with 0 by lia.
      rewrite Nat.div_small; lia.
Qed.

End Chunking.

(** ** Fetch traces, batches and the edges of [gather_metrics] *)

Lemma fetch_loop_calls name call dl n i chunks acc w :
  exists tr,
    w_trace (snd (fetch_loop name call dl n i chunks acc w)) = w_trace w ++ tr /\
    filter is_call tr = map (TCall name) chunks.
Proof.
  revert i acc w. induction chunks as [|ch rest IH]; intros i acc w.
  - exists []. simpl. rewrite app_nil_r. split; reflexivity.
  - simpl. unfold bind at 1, try_except, bind, record_call. simpl.
    destruct (call ch) as [data|].
    + destruct (Nat.ltb i n && Qpos_b dl); monad_simpl.
      * destruct (IH (S i) (acc ++ data)
                     (mkWorld ((w_trace w ++ [TCall name ch]) ++ [TSleep dl]) (w_rows w)))
          as [tr [E F]].
        exists (TCall name ch :: TSleep dl :: tr). rewrite E. simpl.
        rewrite <- !app_assoc. split; [reflexivity | simpl; rewrite F; reflexivity].
      * destruct (IH (S i) (acc ++ data)
                     (mkWorld (w_trace w ++ [TCall name ch]) (w_rows w)))
          as [tr [E F]].
        exists (TCall name ch :: tr). rewrite E. simpl.
        rewrite <- !app_assoc. split; [reflexivity | simpl; rewrite F; reflexivity].
    + monad_simpl.
      destruct (IH (S i) acc (mkWorld (w_trace w ++ [TCall name ch]) (w_rows w)))
        as [tr [E F]].
      exists (TCall name ch :: tr). rewrite E. simpl.
      rewrite <- !app_assoc. split; [reflexivity | simpl; rewrite F; reflexivity].
Qed.

Lemma fetch_loop_cons name call dl n i ch rest acc w :
  fetch_loop name call dl n i (ch :: rest) acc w =
  match call ch with
  | Some data =>
      fetch_loop name call dl n (S i) rest (acc ++ data)
        (if Nat.ltb i n && Qpos_b dl
         then mkWorld ((w_trace w ++ [TCall name ch]) ++ [TSleep dl]) (w_rows w)
         else mkWorld (w_trace w ++ [TCall name ch]) (w_rows w))
  | None => fetch_loop name call dl n (S i) rest acc
              (mkWorld (w_trace w ++ [TCall name ch]) (w_rows w))
  end.
Proof.
  simpl. unfold bind, try_except, record_call, ret, raise, sleep.
  destruct (call ch); [destruct (Nat.ltb i n && Qpos_b dl)|]; reflexivity.
Qed.

Lemma fetch_loop_spaced name call dl chunks : forall i acc w,
  1 <= i -> (forall ch, In ch chunks -> call ch <> None) ->
  w_trace (snd (fetch_loop name call dl (i - 1 + List.length chunks) i chunks acc w))
  = w_trace w ++ (if Qpos_b dl then sep_by (TSleep dl) (map (TCall name) chunks)
                  else map (TCall name) chunks).
Proof.
  induction chunks as [|ch rest IH]; intros i acc w Hi Hc.
  - simpl. destruct (Qpos_b dl); rewrite app_nil_r; reflexivity.
  - rewrite fetch_loop_cons.
    destruct (call ch) as [data|] eqn:Ec; [|exfalso; exact (Hc ch (or_introl eq_refl) Ec)].
    replace (i - 1 + List.length (ch :: rest)) with (S i - 1 + List.length rest)
      by (simpl; lia).
    destruct rest as [|r rest'].
    + replace (Nat.ltb i (S i - 1 + List.length (@nil (list string)))) with false
        by (symmetry; apply Nat.ltb_ge; simpl; lia).
      simpl. destruct (Qpos_b dl); reflexivity.
    + replace (Nat.ltb i (S i - 1 + List.length (r :: rest'))) with true
        by (symmetry; apply Nat.ltb_lt; simpl; lia).
      assert (Hc' : forall ch', In ch' (r :: rest') -> call ch' <> None)
        by (intros; apply Hc; right; assumption).
      destruct (Qpos_b dl) eqn:Eq; simpl andb.
      * rewrite (IH (S i) (acc ++ data) _ ltac:(lia) Hc'). simpl.
        rewrite <- !app_assoc. reflexivity.
      * rewrite (IH (S i) (acc ++ data) _ ltac:(lia) Hc'). simpl.
        rewrite <- !app_assoc. reflexivity.
Qed.

Lemma validate_session_ok api w : session_ok api -> validate_session api w = (Ok tt, w).
Proof.
  unfold session_ok, validate_session.
  intros [E|E]; rewrite E; [reflexivity|]. destruct (session_expired api); reflexivity.
Qed.

Lemma py_ceil_div_nonpos a b : (0 <= a)%Z -> (b < 0)%Z -> (py_ceil_div a b <= 0)%Z.
Proof.
  intros Ha Hb. unfold py_ceil_div.
  replace (- a / b)%Z with (a / - b)%Z.
  - assert (0 <= a / - b)%Z by (apply Z.div_pos; lia). lia.
  - rewrite <- (Z.opp_involutive b) at 2. rewrite Z.div_opp_opp by lia. reflexivity.
Qed.

Lemma py_ceil_div_pos a b : (0 < b)%Z -> py_ceil_div a b = ((a + b - 1) / b)%Z.
Proof.
  intros Hb. unfold py_ceil_div.
  pose proof (Z.div_mod (- a) b ltac:(lia)) as Hdm.
  pose proof (Z.mod_pos_bound (- a) b Hb) as Hr.
  apply (Z.div_unique _ _ _ (b - 1 - (- a) mod b)); [left; lia | lia].
Qed.

Lemma ceil_batches (n p : nat) :
  0 < p ->
  Z.to_nat (py_ceil_div (Z.of_nat n) (Z.of_nat p)) = (n + p - 1) / p.
Proof.
  intros Hp. rewrite py_ceil_div_pos by lia.
  replace (Z.of_nat n + Z.of_nat p - 1)%Z with (Z.of_nat (n + p - 1)) by lia.
  rewrite <- Nat2Z.inj_div, Nat2Z.id. reflexivity.
Qed.

Lemma firstn_add_skipn {A} (n m : nat) (l : list A) :
  firstn (n + m) l = firstn n l ++ firstn m (skipn n l).
Proof.
  revert l; induction n as [|n IH]; intros l; [reflexivity|].
  destruct l as [|x l]; simpl; [destruct m; reflexivity|]. rewrite IH. reflexivity.
Qed.

Lemma batch_slice_firstn l p b : batch_slice l p b = firstn p (skipn (b * p) l).
Proof.
  unfold batch_slice, py_slice.
  destruct (Nat.le_gt_cases (b * p + p) (List.length l)) as [Hle|Hgt].
  - rewrite Nat.min_l by lia. f_equal. lia.
  - rewrite Nat.min_r by lia.
    rewrite firstn_all2 by (rewrite length_skipn; lia).
    rewrite firstn_all2 by (rewrite length_skipn; lia). reflexivity.
Qed.

Lemma batch_slices_concat l p m : forall k,
  List.concat (map (batch_slice l p) (seq k m)) = firstn (m * p) (skipn (k * p) l).
Proof.
  induction m as [|m IH]; intros k; [reflexivity|].
  simpl. rewrite IH, batch_slice_firstn, firstn_add_skipn, skipn_skipn.
  do 2 f_equal.
Qed.

(** ** Key order of [_combine_data], keys of [gather_metrics] *)

Lemma od_set_keys {V} (k : string) (v : V) d :
  map fst (od_set k v d) = py_set_add k (map fst d).
Proof.
  unfold py_set_add. induction d as [|[k1 v1] d IH]; [reflexivity|].
  cbn [od_set map fst existsb]. destruct (String.eqb_spec k k1) as [->|Hne].
  - reflexivity.
  - cbn [orb map fst]. rewrite IH.
    destruct (existsb (String.eqb k) (map fst d)); reflexivity.
Qed.

Lemma combine_keys_order metrics market :
  map fst (_combine_data metrics market)
  = fold_left (fun acc x => py_set_add x acc)
              (map rec_symbol metrics ++ map rec_symbol market) [].
Proof.
  rewrite combine_data_unfold, fold_left_app.
  assert (H1 : forall d, map fst (fold_left combine_step1 metrics d)
       = fold_left (fun acc x => py_set_add x acc) (map rec_symbol metrics) (map fst d)).
  { induction metrics as [|r l IH]; intros d; [reflexivity|].
    simpl. rewrite IH. unfold combine_step1. rewrite od_set_keys. reflexivity. }
  assert (H2 : forall d, map fst (fold_left combine_step2 market d)
       = fold_left (fun acc x => py_set_add x acc) (map rec_symbol market) (map fst d)).
  { induction market as [|r l IH]; intros d; [reflexivity|].
    simpl. rewrite IH. unfold combine_step2.
    destruct (od_lookup (rec_symbol r) d); rewrite od_set_keys; reflexivity. }
  rewrite H2, H1. reflexivity.
Qed.

Lemma combine_keys_iff metrics market s :
  In s (map fst (_combine_data metrics market)) <->
  In s (map rec_symbol metrics) \/ In s (map rec_symbol market).
Proof.
  split; [|apply combine_keys_in].
  intros H. apply od_lookup_in in H. destruct H as [row H]. rewrite combine_lookup in H.
  destruct (last_dump s metrics) eqn:E1.
  - left. eapply last_dump_some_in; eassumption.
  - destruct (last_dump s market) eqn:E2; [|discriminate].
    right. eapply last_dump_some_in; eassumption.
Qed.

Lemma successes_symbols (call : list string -> option (list Rec)) chunks k :
  In k (map rec_symbol (successes call chunks)) <->
  exists ch recs, In ch chunks /\ call ch = Some recs /\ In k (map rec_symbol recs).
Proof.
  split.
  - intros H. apply in_map_iff in H. destruct H as [r [<- Hr]].
    unfold successes in Hr. apply in_concat in Hr. destruct Hr as [l [Hl Hr]].
    apply in_map_iff in Hl. destruct Hl as [ch [Ech Hch]].
    destruct (call ch) as [recs|] eqn:Ec; [|subst l; contradiction].
    subst l. exists ch, recs. split; [exact Hch|split; [exact Ec|apply in_map, Hr]].
  - intros [ch [recs [Hch [Hc Hk]]]]. apply in_map_iff in Hk. destruct Hk as [r [<- Hr]].
    apply in_map. eapply successes_in; eassumption.
Qed.

Lemma batch_loop_keys api syms p nb dc db nums acc w :
  api_wf api ->
  exists all w',
    batch_loop api syms p nb dc db nums acc w = (Ok all, w') /\
    forall k, In k (map fst all) <->
      In k (map fst acc) \/
      exists b, In b nums /\ In k (map fst (batch_combined api (batch_slice syms p b))).
Proof.
  intros Hwf. revert acc w.
  induction nums as [|b nums IH]; intros acc w.
  - exists acc, w. split; [reflexivity|]. intros k. split; [auto|].
    intros [H|[b [[] _]]]. exact H.
  - simpl. destruct (process_symbol_batch_ok api (batch_slice syms p b) dc w Hwf)
      as [w1 [pss [E1 _]]].
    unfold bind at 1. rewrite E1.
    set (acc' := od_update acc (batch_combined api (batch_slice syms p b))).
    destruct (Nat.ltb b (nb - 1) && Qpos_b db); monad_simpl;
      match goal with
      | |- exists all w', batch_loop _ _ _ _ _ _ _ _ ?w0 = _ /\ _ =>
          destruct (IH acc' w0) as [all [w' [E Hk]]]
      end;
      exists all, w'; (split; [exact E|]); intros k; rewrite Hk; unfold acc';
      rewrite od_update_keys;
      (split;
       [ intros [[H|H]|[b' [Hb H]]];
         [ left; exact H
         | right; exists b; split; [left; reflexivity | exact H]
         | right; exists b'; split; [right; exact Hb | exact H]]
       | intros [H|[b' [[<-|Hb] H]]];
         [ left; left; exact H
         | left; right; exact H
         | right; exists b'; split; [exact Hb | exact H]]]).
Qed.

(** ** Call order of [gather_metrics] *)

Lemma process_batch_calls api batch dc w :
  api_wf api ->
  exists tr,
    w_trace (snd (_process_symbol_batch api batch dc w)) = w_trace w ++ tr /\
    filter is_call tr
    = map (TCall "get_market_metrics") (_chunk_symbols batch 10) ++
      map (TCall "get_market_data_by_type") (_chunk_symbols batch 10).
Proof.
  intros Hwf. unfold _process_symbol_batch, _fetch_metrics_in_batches,
    _fetch_market_data_in_batches.
  set (chunks := _chunk_symbols batch 10).
  destruct (fetch_loop_ok "get_market_metrics" (get_market_metrics api) dc
              (List.length chunks) 1 chunks [] w) as [w1 [E1 _]].
  destruct (fetch_loop_calls "get_market_metrics" (get_market_metrics api) dc
              (List.length chunks) 1 chunks [] w) as [tr1 [T1 F1]].
  rewrite E1 in T1. simpl in T1.
  unfold bind at 1. rewrite E1. simpl.
  destruct (fetch_loop_ok "get_market_data_by_type" (get_market_data_by_type api) dc
              (List.length chunks) 1 chunks [] w1) as [w2 [E2 _]].
  destruct (fetch_loop_calls "get_market_data_by_type" (get_market_data_by_type api) dc
              (List.length chunks) 1 chunks [] w1) as [tr2 [T2 F2]].
  rewrite E2 in T2. simpl in T2.
  unfold bind at 1. rewrite E2. simpl.
  destruct (store_rows_ok api (batch_combined api batch) w2) as [pss [_ E3]].
  { pose proof (combine_rows_wf _ _ (successes_wf api true (_chunk_symbols batch 10) Hwf)
                                    (successes_wf api false (_chunk_symbols batch 10) Hwf))
      as Hrows.
    eapply Forall_impl; [|exact Hrows]. intros [s row] [Hm Hp].
    apply metric_params_row_ok; assumption. }
  unfold batch_combined in E3. fold chunks in E3.
  unfold bind. rewrite E3. simpl.
  exists (tr1 ++ tr2). rewrite T2, T1, <- app_assoc. split; [reflexivity|].
  rewrite filter_app, F1, F2. reflexivity.
Qed.

Lemma batch_loop_calls api syms p nb dc db nums acc w :
  api_wf api ->
  exists all w' tr,
    batch_loop api syms p nb dc db nums acc w = (Ok all, w') /\
    w_trace w' = w_trace w ++ tr /\
    filter is_call tr = List.concat (map (batch_calls syms p) nums).
Proof.
  intros Hwf. revert acc w.
  induction nums as [|b nums IH]; intros acc w.
  - exists acc, w, []. rewrite app_nil_r. split; [reflexivity|split; reflexivity].
  - destruct (process_symbol_batch_ok api (batch_slice syms p b) dc w Hwf)
      as [w1 [pss [E1 _]]].
    destruct (process_batch_calls api (batch_slice syms p b) dc w Hwf) as [tr1 [T1 F1]].
    rewrite E1 in T1. simpl in T1.
    simpl. unfold bind at 1. rewrite E1.
    set (acc' := od_update acc (batch_combined api (batch_slice syms p b))).
    destruct (Nat.ltb b (nb - 1) && Qpos_b db).
    + unfold bind, sleep. simpl.
      destruct (IH acc' (mkWorld (w_trace w1 ++ [TSleep db]) (w_rows w1)))
        as [all [w' [tr [E [T F]]]]].
      exists all, w', (tr1 ++ TSleep db :: tr). split; [exact E|]. split.
      * rewrite T. simpl. rewrite T1, <- !app_assoc. reflexivity.
      * rewrite filter_app. simpl. rewrite F1, F. reflexivity.
    + unfold bind, ret. simpl.
      destruct (IH acc' w1) as [all [w' [tr [E [T F]]]]].
      exists all, w', (tr1 ++ tr). split; [exact E|]. split.
      * rewrite T, T1, <- app_assoc. reflexivity.
      * rewrite filter_app, F1, F. reflexivity.
Qed.

(** ** Historical backfill loop: collected candles, errors, completion *)

Lemma data_append_spec k v data data' :
  data_append k v data = Ok data' ->
  map fst data' = map fst data /\
  forall s, od_lookup s data'
            = if String.eqb s k then option_map (fun l => l ++ [v]) (od_lookup k data)
              else od_lookup s data.
Proof.
  unfold data_append. destruct (od_lookup k data) as [l|] eqn:E; [|discriminate].
  intros [= <-]. split.
  - rewrite od_set_keys. unfold py_set_add.
    assert (Hk : existsb (String.eqb k) (map fst data) = true).
    { apply existsb_exists. exists k. split; [apply od_lookup_in; eauto | apply String.eqb_refl]. }
    rewrite Hk. reflexivity.
  - intros s. rewrite od_lookup_set.
    destruct (String.eqb_spec s k); reflexivity.
Qed.

Lemma init_data_keys_iff symbols s : In s (map fst (init_data symbols)) <-> In s symbols.
Proof.
  unfold init_data.
  assert (G : forall d, In s (map fst (fold_left (fun d s => od_set s (@nil pyval) d) symbols d))
                        <-> In s (map fst d) \/ In s symbols).
  { induction symbols as [|x xs IH]; simpl; intros d; [tauto|].
    rewrite IH, od_keys_set. intuition (subst; auto). }
  rewrite G. simpl. tauto.
Qed.

Lemma init_data_empty symbols s l : od_lookup s (init_data symbols) = Some l -> l = [].
Proof.
  unfold init_data.
  assert (G : forall d, (forall l, od_lookup s d = Some l -> l = []) ->
              forall l, od_lookup s (fold_left (fun d s => od_set s (@nil pyval) d) symbols d)
                        = Some l -> l = []).
  { induction symbols as [|x xs IH]; simpl; intros d Hd; [exact Hd|].
    apply IH. intros l'. rewrite od_lookup_set.
    destruct (String.eqb s x); [congruence | apply Hd]. }
  apply G. intros l' H. discriminate.
Qed.

Ltac case_len_eqb H :=
  match type of H with
  | context [Nat.eqb ?a ?b] => destruct (Nat.eqb a b) eqn:?
  end.

Lemma hist_loop_collects symbols st evs : forall n0 data completed why n data',
  hist_loop symbols st evs n0 data completed = HStopped why n data' ->
  n0 < n /\ map fst data' = map fst data /\
  forall s, od_lookup s data'
            = option_map (fun l => l ++ flat_map (kept_dump st s) (firstn (n - n0) evs))
                         (od_lookup s data).
Proof.
  induction evs as [|ev evs IH]; intros n0 data completed why n data' H; [discriminate|].
  destruct ev as [|es t c d].
  - cbn [hist_loop] in H. injection H as <- <- <-. split; [lia|]. split; [reflexivity|].
    intros s. replace (S n0 - n0) with 1 by lia. simpl.
    destruct (od_lookup s data); simpl; [rewrite app_nil_r|]; reflexivity.
  - assert (Gsig : (Z.ltb t st || Qeq_bool c 0) = true -> forall c',
              (if Nat.eqb (List.length c') (List.length symbols)
               then HStopped ByCompletion (S n0) data
               else hist_loop symbols st evs (S n0) data c') = HStopped why n data' ->
              n0 < n /\ map fst data' = map fst data /\
              forall s, od_lookup s data'
                = option_map (fun l => l ++ flat_map (kept_dump st s)
                                                     (firstn (n - n0) (CandleEv es t c d :: evs)))
                             (od_lookup s data)).
    { intros Hsg c' H'.
      assert (Hk : forall s, kept_dump st s (CandleEv es t c d) = []).
      { intros s. unfold kept_dump. rewrite Hsg, andb_false_r. reflexivity. }
      destruct (Nat.eqb (List.length c') (List.length symbols)).
      - injection H' as <- <- <-. split; [lia|]. split; [reflexivity|].
        intros s. replace (S n0 - n0) with 1 by lia. cbn [firstn flat_map]. rewrite Hk.
        destruct (od_lookup s data); simpl; [rewrite app_nil_r|]; reflexivity.
      - destruct (IH _ _ _ _ _ _ H') as (Hlt & Hkeys & Hl).
        split; [lia|]. split; [exact Hkeys|]. intros s. rewrite Hl.
        replace (n - n0) with (S (n - S n0)) by lia. cbn [firstn flat_map]. rewrite Hk.
        reflexivity. }
    cbn [hist_loop] in H. destruct (Z.ltb t st) eqn:Et.
    + exact (Gsig eq_refl _ H).
    + destruct (Qeq_bool c 0) eqn:Ec.
      * exact (Gsig eq_refl _ H).
      * destruct (data_append (base_symbol es) d data) as [data''|e] eqn:Ed; [|discriminate].
        destruct (data_append_spec _ _ _ _ Ed) as [Hk'' Hl''].
        destruct (IH _ _ _ _ _ _ H) as (Hlt & Hkeys & Hl).
        split; [lia|]. split; [congruence|].
        intros s.
        assert (Hkd : kept_dump st s (CandleEv es t c d)
                      = if String.eqb (base_symbol es) s then [d] else []).
        { unfold kept_dump. rewrite Et, Ec. destruct (String.eqb (base_symbol es) s); reflexivity. }
        rewrite Hl, Hl''. replace (n - n0) with (S (n - S n0)) by lia.
        cbn [firstn flat_map]. rewrite Hkd.
        destruct (String.eqb_spec s (base_symbol es)) as [->|Hne].
        -- rewrite String.eqb_refl.
           destruct (od_lookup (base_symbol es) data); simpl;
             [rewrite <- app_assoc; reflexivity | reflexivity].
        -- rewrite (proj2 (String.eqb_neq (base_symbol es) s)) by congruence.
           reflexivity.
Qed.

Lemma hist_loop_raises symbols st evs : forall n data completed e,
  (forall s, In s (map fst data) <-> In s symbols) ->
  hist_loop symbols st evs n data completed = HRaised e ->
  e = KeyError /\
  exists es t c d, In (CandleEv es t c d) evs /\ signals st (CandleEv es t c d) = None /\
                   ~ In (base_symbol es) symbols.
Proof.
  induction evs as [|ev evs IH]; intros n data completed e Hk H; [discriminate|].
  destruct ev as [|es t c d]; [discriminate|].
  assert (Grest : forall data', (forall s, In s (map fst data') <-> In s symbols) ->
            forall c', hist_loop symbols st evs (S n) data' c' = HRaised e ->
            e = KeyError /\
            exists es' t' c'' d', In (CandleEv es' t' c'' d') (CandleEv es t c d :: evs) /\
              signals st (CandleEv es' t' c'' d') = None /\ ~ In (base_symbol es') symbols).
  { intros data' Hk' c' H'.
    destruct (IH _ _ _ _ Hk' H') as [He [es' [t' [c'' [d' (Hin & Hs & Hn)]]]]].
    split; [exact He|]. exists es', t', c'', d'. split; [right; exact Hin | auto]. }
  cbn [hist_loop] in H. destruct (Z.ltb t st) eqn:Et.
  - case_len_eqb H; [discriminate|]. eapply Grest; eauto.
  - destruct (Qeq_bool c 0) eqn:Ec.
    + case_len_eqb H; [discriminate|]. eapply Grest; eauto.
    + destruct (data_append (base_symbol es) d data) as [data'|e'] eqn:Ed.
      * destruct (data_append_spec _ _ _ _ Ed) as [Hkeys _].
        eapply Grest; [|exact H]. intros s. rewrite Hkeys. apply Hk.
      * injection H as <-. unfold data_append in Ed.
        destruct (od_lookup (base_symbol es) data) eqn:El; [discriminate|].
        injection Ed as <-. split; [reflexivity|].
        exists es, t, c, d. split; [left; reflexivity|].
        split; [unfold signals; rewrite Et, Ec; reflexivity|].
        intros Hin. apply Hk in Hin. apply od_lookup_in in Hin.
        destruct Hin as [v Hv]. congruence.
Qed.

Lemma hist_loop_dup_no_completion symbols st evs : forall n data completed m d,
  ~ NoDup symbols -> NoDup completed -> incl completed symbols ->
  (forall ev s, In ev evs -> signals st ev = Some s -> In s symbols) ->
  hist_loop symbols st evs n data completed <> HStopped ByCompletion m d.
Proof.
  induction evs as [|ev evs IH]; intros n data completed m d Hs Hc Hi Hev H; [discriminate|].
  destruct ev as [|es t c dmp]; [discriminate|].
  assert (Hev' : forall ev s, In ev evs -> signals st ev = Some s -> In s symbols)
    by (intros; eapply Hev; [right|]; eassumption).
  assert (Gsig : (Z.ltb t st || Qeq_bool c 0) = true ->
            (if Nat.eqb (List.length (py_set_add (base_symbol es) completed)) (List.length symbols)
             then HStopped ByCompletion (S n) data
             else hist_loop symbols st evs (S n) data (py_set_add (base_symbol es) completed))
            <> HStopped ByCompletion m d).
  { intros Hsg.
    assert (Hb : In (base_symbol es) symbols).
    { apply (Hev (CandleEv es t c dmp)); [left; reflexivity|]. unfold signals. rewrite Hsg.
      reflexivity. }
    assert (Hnd : NoDup (py_set_add (base_symbol es) completed)) by (apply py_set_add_nodup, Hc).
    assert (Hi' : incl (py_set_add (base_symbol es) completed) symbols).
    { intros x Hx. apply py_set_add_in in Hx. destruct Hx as [-> | Hx]; auto. }
    destruct (Nat.eqb_spec (List.length (py_set_add (base_symbol es) completed))
                           (List.length symbols)) as [El|_].
    - intros _. apply Hs. eapply NoDup_incl_NoDup; [exact Hnd | lia | exact Hi'].
    - apply IH; assumption. }
  cbn [hist_loop] in H. destruct (Z.ltb t st) eqn:Et.
  - exact (Gsig eq_refl H).
  - destruct (Qeq_bool c 0) eqn:Ec.
    + exact (Gsig eq_refl H).
    + destruct (data_append (base_symbol es) dmp data) as [data'|e]; [|discriminate].
      exact (IH _ _ _ _ _ Hs Hc Hi Hev' H).
Qed.

Lemma hist_loop_empty_no_completion st evs : forall n data completed m d,
  hist_loop [] st evs n data completed <> HStopped ByCompletion m d.
Proof.
  induction evs as [|ev evs IH]; intros n data completed m d H; [discriminate|].
  destruct ev as [|es t c dmp]; [discriminate|].
  assert (Hl : Nat.eqb (List.length (py_set_add (base_symbol es) completed)) 0 = false).
  { destruct (py_set_add (base_symbol es) completed) eqn:E; [|reflexivity].
    exfalso. assert (Hin : In (base_symbol es) (py_set_add (base_symbol es) completed))
      by (apply py_set_add_in; left; reflexivity).
    rewrite E in Hin. exact Hin. }
  cbn [hist_loop] in H. change (List.length (@nil string)) with 0 in H.
  destruct (Z.ltb t st).
  - rewrite Hl in H. exact (IH _ _ _ _ _ H).
  - destruct (Qeq_bool c 0).
    + rewrite Hl in H. exact (IH _ _ _ _ _ H).
    + destruct (data_append (base_symbol es) dmp data); [exact (IH _ _ _ _ _ H) | discriminate].
Qed.

(** ** [on_candle], the store's accessors, [connect] *)

Lemma candle_params_ok api c m_data :
  Forall (fun v => numeric_or_none v = true)
         [candle_volume c; candle_bid_volume c; candle_ask_volume c; candle_imp_volatility c] ->
  exists mid,
    Forall2 (fun v p => none_or_float api v = Ok p)
            [candle_volume c; candle_bid_volume c; candle_ask_volume c;
             candle_imp_volatility c] mid /\
    candle_params api (candle_dict_of c m_data) = Ok (candle_row c mid m_data).
Proof.
  intros H. rewrite Forall_forall in H.
  destruct (none_or_float_num api (candle_volume c)) as [p1 E1]; [apply H; simpl; auto|].
  destruct (none_or_float_num api (candle_bid_volume c)) as [p2 E2]; [apply H; simpl; auto|].
  destruct (none_or_float_num api (candle_ask_volume c)) as [p3 E3]; [apply H; simpl; auto|].
  destruct (none_or_float_num api (candle_imp_volatility c)) as [p4 E4];
    [apply H; simpl; auto|].
  exists [p1; p2; p3; p4]. split; [repeat constructor; assumption|].
  destruct m_data as [|m0 ms]; unfold candle_params, candle_dict_of, candle_row;
    cbn -[none_or_float]; rewrite E1, E2, E3, E4; reflexivity.
Qed.

Lemma od_delete_lookup {V} (s k : string) (d : list (string * V)) :
  NoDup (map fst d) ->
  od_lookup k (od_delete s d) = if String.eqb k s then None else od_lookup k d.
Proof.
  induction d as [|[k1 v1] d IH]; intros Hnd; simpl;
    [destruct (String.eqb k s); reflexivity|].
  apply NoDup_cons_iff in Hnd as [Hn Hnd'].
  destruct (String.eqb_spec s k1) as [->|Hne].
  - destruct (String.eqb_spec k k1) as [->|Hk]; [apply od_lookup_notin; exact Hn | reflexivity].
  - simpl. destruct (String.eqb_spec k k1) as [->|Hk].
    + rewrite (proj2 (String.eqb_neq k1 s)) by congruence. reflexivity.
    + apply IH, Hnd'.
Qed.

Lemma batch_loop_lookup api syms p nb dc db nums acc w :
  api_wf api ->
  exists all w',
    batch_loop api syms p nb dc db nums acc w = (Ok all, w') /\
    forall k, od_lookup k all
      = fold_left (fun r b => match od_lookup k (batch_combined api (batch_slice syms p b)) with
                              | Some v => Some v
                              | None => r
                              end) nums (od_lookup k acc).
Proof.
  intros Hwf. revert acc w.
  induction nums as [|b nums IH]; intros acc w.
  - exists acc, w. split; reflexivity.
  - simpl. destruct (process_symbol_batch_ok api (batch_slice syms p b) dc w Hwf)
      as [w1 [pss [E1 _]]].
    unfold bind at 1. rewrite E1.
    set (acc' := od_update acc (batch_combined api (batch_slice syms p b))).
    assert (Hacc' : forall k, od_lookup k acc'
               = match od_lookup k (batch_combined api (batch_slice syms p b)) with
                 | Some v => Some v
                 | None => od_lookup k acc
                 end).
    { intros k. unfold acc'. apply od_update_lookup, combine_nodup. }
    destruct (Nat.ltb b (nb - 1) && Qpos_b db); monad_simpl;
      match goal with
      | |- exists all w', batch_loop _ _ _ _ _ _ _ _ ?w0 = _ /\ _ =>
          destruct (IH acc' w0) as [all [w' [E Hk]]]
      end;
      exists all, w'; (split; [exact E|]); intros k; rewrite Hk, Hacc'; reflexivity.
Qed.

Lemma fold_last_seq {V} (f : nat -> option V) nb v :
  fold_left (fun r b => match f b with Some v => Some v | None => r end) (seq 0 nb) None
    = Some v <->
  exists b, b < nb /\ f b = Some v /\ forall b', b < b' < nb -> f b' = None.
Proof.
  induction nb as [|nb IH].
  - simpl. split; [discriminate | intros [b [Hb _]]; lia].
  - rewrite seq_S, fold_left_app. simpl. destruct (f nb) as [u|] eqn:E.
    + split.
      * intros [= <-]. exists nb. split; [lia|]. split; [exact E|]. intros b' Hb'. lia.
      * intros [b [Hb [Hf Hlater]]]. destruct (Nat.eq_dec b nb) as [->|Hne]; [congruence|].
        rewrite Hlater in E by lia. discriminate.
    + rewrite IH. split.
      * intros [b [Hb [Hf Hl]]]. exists b. split; [lia|]. split; [exact Hf|].
        intros b' Hb'. destruct (Nat.eq_dec b' nb) as [->|]; [exact E | apply Hl; lia].
      * intros [b [Hb [Hf Hl]]]. destruct (Nat.eq_dec b nb) as [->|Hne]; [congruence|].
        exists b. split; [lia|]. split; [exact Hf|]. intros b' Hb'. apply Hl. lia.
Qed.

(** ** Rows stored by a run of [gather_metrics] *)

Lemma batch_loop_rows api syms p nb dc db nums acc w :
  api_wf api ->
  exists all w' psss,
    batch_loop api syms p nb dc db nums acc w = (Ok all, w') /\
    Forall2 (fun b pss => Forall2 (row_params_ok api)
                                  (batch_combined api (batch_slice syms p b)) pss)
            nums psss /\
    w_rows w' = w_rows w ++ List.concat (map (accepted_rows api) psss).
Proof.
  intros Hwf. revert acc w.
  induction nums as [|b nums IH]; intros acc w.
  - exists acc, w, []. split; [reflexivity|]. split; [constructor|].
    simpl. rewrite app_nil_r. reflexivity.
  - simpl. destruct (process_symbol_batch_ok api (batch_slice syms p b) dc w Hwf)
      as [w1 [pss (E1 & HF & R1)]].
    unfold bind at 1. rewrite E1.
    destruct (Nat.ltb b (nb - 1) && Qpos_b db); monad_simpl;
      match goal with
      | |- exists all w' psss, batch_loop _ _ _ _ _ _ _ ?a ?w0 = _ /\ _ =>
          destruct (IH a w0) as [all [w' [psss (E & HF' & R)]]]
      end;
      exists all, w', (pss :: psss); (split; [exact E|]);
      (split; [constructor; assumption|]);
      rewrite R; simpl; rewrite R1, <- app_assoc; reflexivity.
Qed.

Lemma accepted_rows_all api pss :
  (forall ps, execute_query api "equity_data" ps = true) ->
  List.length (accepted_rows api pss) = List.length pss.
Proof.
  intros H. unfold accepted_rows. rewrite length_map, forallb_filter_id; [reflexivity|].
  apply forallb_forall. intros ps _. apply H.
Qed.

Lemma accepted_rows_count api (rows_of : nat -> Combined) nums psss :
  (forall ps, execute_query api "equity_data" ps = true) ->
  Forall2 (fun b pss => Forall2 (row_params_ok api) (rows_of b) pss) nums psss ->
  List.length (List.concat (map (accepted_rows api) psss))
    = list_sum (map (fun b => List.length (rows_of b)) nums).
Proof.
  intros Hdb HF. induction HF as [|b pss nums psss Hb _ IH]; [reflexivity|].
  simpl. rewrite length_app, IH, accepted_rows_all by exact Hdb.
  f_equal. symmetry. eapply Forall2_length. exact Hb.
Qed.

(** ** Claims *)

(** C2: for every symbol list of length [N] and chunk size [C > 0],
    [_chunk_symbols] yields exactly [ceil(N/C)] chunks, each of length at
    most [C], whose concatenation in yield order is the input list. *)
Theorem chunk_symbols_partition (symbols_list : list string) (chunk_size : nat) :
  0 < chunk_size ->
  List.length (_chunk_symbols symbols_list chunk_size)
    = (List.length symbols_list + chunk_size - 1) / chunk_size
  /\ Forall (fun ch => List.length ch <= chunk_size)
            (_chunk_symbols symbols_list chunk_size)
  /\ List.concat (_chunk_symbols symbols_list chunk_size) = symbols_list.
Proof.
  intros Hc. unfold _chunk_symbols, py_range. split; [|split].
  - rewrite length_map, range_aux_length by lia. f_equal. lia.
  - apply Forall_map, Forall_forall. intros i _. unfold py_slice.
    rewrite length_firstn. lia.
  - rewrite range_aux_concat by lia. reflexivity.
Qed.

Lemma chunk_symbols_partition_witness :
  0 < 3 /\
  List.length (_chunk_symbols ["A";"B";"C";"D";"E";"F";"G"] 3)
    = (List.length ["A";"B";"C";"D";"E";"F";"G"] + 3 - 1) / 3.
Proof.
  split; [lia|].
  apply (chunk_symbols_partition ["A";"B";"C";"D";"E";"F";"G"] 3); lia.
Defined.

(** C3: [_combine_data] is a full outer join on symbol.  For input lists
    with per-list unique symbols, every symbol of either input is a key of
    the result exactly once; its row carries the symbol, the metrics dump
    when the symbol has a metrics record and [None] otherwise, the market
    data dump when it has a price record and [None] otherwise.  The function
    is total, so empty inputs are no error. *)
Theorem combine_data_full_outer_join (metrics_data market_data : list Rec) :
  NoDup (map rec_symbol metrics_data) ->
  NoDup (map rec_symbol market_data) ->
  let cd := _combine_data metrics_data market_data in
  NoDup (map fst cd) /\
  (forall s, (exists row, od_lookup s cd = Some row) <->
             In s (map rec_symbol metrics_data) \/ In s (map rec_symbol market_data)) /\
  (forall s row, od_lookup s cd = Some row ->
     c_symbol row = s /\
     (forall r, In r metrics_data -> rec_symbol r = s -> c_metrics row = Some (rec_dump r)) /\
     (~ In s (map rec_symbol metrics_data) -> c_metrics row = None) /\
     (forall r, In r market_data -> rec_symbol r = s -> c_market_data row = Some (rec_dump r)) /\
     (~ In s (map rec_symbol market_data) -> c_market_data row = None)).
Proof.
  intros Hm Hp cd. subst cd. split; [apply combine_nodup|split].
  - intros s. rewrite combine_lookup.
    assert (K : forall l, match last_dump s l with
                          | Some _ => In s (map rec_symbol l)
                          | None => ~ In s (map rec_symbol l) end).
    { intros l. destruct (last_dump s l) eqn:E.
      - eapply last_dump_some_in; eassumption.
      - apply last_dump_none; assumption. }
    generalize (K metrics_data) (K market_data).
    destruct (last_dump s metrics_data), (last_dump s market_data); intros K1 K2;
      split; intros H; try (eexists; reflexivity); try tauto.
    destruct H as [? H]; discriminate.
  - intros s row. rewrite combine_lookup. intros Hrow.
    assert (Hrow' : row = mkCRow s (last_dump s metrics_data) (last_dump s market_data)).
    { destruct (last_dump s metrics_data), (last_dump s market_data);
        congruence. }
    subst row. simpl. repeat split.
    + intros r Hin Hs. apply last_dump_unique; assumption.
    + apply last_dump_none.
    + intros r Hin Hs. apply last_dump_unique; assumption.
    + apply last_dump_none.
Qed.

Lemma combine_data_full_outer_join_witness :
  NoDup (map rec_symbol [mkRec "A" []; mkRec "B" []]) /\
  NoDup (map rec_symbol [mkRec "B" [("bid", VInt 1)]; mkRec "C" []]) /\
  NoDup (map fst (_combine_data [mkRec "A" []; mkRec "B" []]
                                [mkRec "B" [("bid", VInt 1)]; mkRec "C" []])).
Proof.
  assert (H1 : NoDup (map rec_symbol [mkRec "A" []; mkRec "B" []])).
  { simpl. repeat constructor; simpl; intuition discriminate. }
  assert (H2 : NoDup (map rec_symbol [mkRec "B" [("bid", VInt 1)]; mkRec "C" []])).
  { simpl. repeat constructor; simpl; intuition discriminate. }
  split; [exact H1|split; [exact H2|]].
  exact (proj1 (combine_data_full_outer_join _ _ H1 H2)).
Defined.

(** C1: a chunk whose fetch raises is skipped and the run goes on.  For
    every API (any set of chunk calls may raise), every symbol list and
    every positive batch size, [gather_metrics] returns normally (it does
    not propagate the fetch exceptions), and its mapping holds a combined
    row for the symbol of every record that a successful metrics or market
    data call of any chunk of any batch returned.  The records are assumed
    well formed (numeric fields hold numbers) and the session check passes. *)
Theorem gather_metrics_skips_failed_chunks (api : Api) (symbols_list : list string)
  (symbols_per_batch : Z) (delay_between_calls delay_between_batches : Q)
  (verbose : bool) (w : World) (batch_num : nat) (chunk : list string)
  (recs : list Rec) (r : Rec) :
  api_wf api -> session_ok api -> (0 < symbols_per_batch)%Z ->
  batch_num < Z.to_nat (py_ceil_div (Z.of_nat (List.length symbols_list))
                                    symbols_per_batch) ->
  In chunk (_chunk_symbols (batch_slice symbols_list (Z.to_nat symbols_per_batch)
                                        batch_num) 10) ->
  get_market_metrics api chunk = Some recs \/
    get_market_data_by_type api chunk = Some recs ->
  In r recs ->
  exists m w',
    gather_metrics api symbols_list symbols_per_batch delay_between_calls
                   delay_between_batches verbose w = (Ok m, w') /\
    exists row, od_lookup (rec_symbol r) m = Some row /\ c_symbol row = rec_symbol r.
Proof.
  intros Hwf Hs Hp Hb Hch Hcall Hr.
  unfold gather_metrics, bind at 1.
  assert (Hv : validate_session api w = (Ok tt, w)).
  { unfold validate_session. destruct Hs as [-> | ->]; [reflexivity|].
    destruct (session_expired api); reflexivity. }
  rewrite Hv. unfold bind at 1.
  rewrite (proj2 (Z.eqb_neq symbols_per_batch 0)) by lia.
  unfold ret at 1.
  set (nb := Z.to_nat (py_ceil_div (Z.of_nat (List.length symbols_list)) symbols_per_batch))
    in *.
  destruct (batch_loop_ok api symbols_list (Z.to_nat symbols_per_batch) nb
              delay_between_calls delay_between_batches (seq 0 nb) [] w Hwf)
    as [all [w' (E & _ & Hk & Hsym)]].
  { intros k row H. discriminate. }
  unfold bind at 1. rewrite E.
  assert (Hin : In (rec_symbol r) (map fst all)).
  { apply (Hk batch_num); [apply in_seq; lia|].
    unfold batch_combined. apply combine_keys_in.
    destruct Hcall as [Hc | Hc]; [left|right]; apply in_map;
      eapply successes_in; eassumption. }
  assert (Hsum : summary verbose all w' = (Ok tt, w')).
  { unfold summary. destruct verbose; [|reflexivity].
    destruct all as [|x all]; [contradiction|reflexivity]. }
  unfold bind. rewrite Hsum. exists all, w'. split; [reflexivity|].
  apply od_lookup_in in Hin. destruct Hin as [row Hrow].
  exists row. split; [exact Hrow|]. eapply Hsym; eassumption.
Qed.

Lemma gather_metrics_skips_failed_chunks_witness :
  exists m w',
    gather_metrics api_cd_fails ["A"; "B"; "C"; "D"] 2 (1#10) 1 true (mkWorld [] [])
      = (Ok m, w') /\
    exists row, od_lookup "A" m = Some row /\ c_symbol row = "A".
Proof.
  apply (gather_metrics_skips_failed_chunks api_cd_fails ["A"; "B"; "C"; "D"] 2
           (1#10) 1 true (mkWorld [] []) 0 ["A"; "B"] (recs_of ["A"; "B"])
           (mkRec "A" sample_dump)).
  - apply api_cd_fails_wf.
  - left. reflexivity.
  - lia.
  - vm_compute. lia.
  - simpl. left. reflexivity.
  - left. reflexivity.
  - simpl. left. reflexivity.
Defined.

(** C10: with [verbose=True], when the accumulated mapping ends empty (the
    symbol list is empty, or every chunk call raises), the summary divides
    by [len(all_combined_data)] and [gather_metrics] raises
    [ZeroDivisionError] instead of returning the empty mapping. *)
Theorem gather_metrics_verbose_empty_raises (api : Api) (symbols_list : list string)
  (symbols_per_batch : Z) (delay_between_calls delay_between_batches : Q) (w : World) :
  session_ok api ->
  symbols_list = [] \/
    (forall chunk, get_market_metrics api chunk = None /\
                   get_market_data_by_type api chunk = None) ->
  fst (gather_metrics api symbols_list symbols_per_batch delay_between_calls
                      delay_between_batches true w) = Err ZeroDivisionError.
Proof.
  intros Hs Hempty.
  unfold gather_metrics, bind at 1.
  assert (Hv : validate_session api w = (Ok tt, w)).
  { unfold validate_session. destruct Hs as [-> | ->]; [reflexivity|].
    destruct (session_expired api); reflexivity. }
  rewrite Hv. unfold bind at 1.
  destruct (Z.eqb_spec symbols_per_batch 0) as [->|Hne]; [reflexivity|].
  unfold ret at 1.
  set (nb := Z.to_nat (py_ceil_div (Z.of_nat (List.length symbols_list)) symbols_per_batch)).
  assert (Hloop : exists w', batch_loop api symbols_list (Z.to_nat symbols_per_batch) nb
                    delay_between_calls delay_between_batches (seq 0 nb) [] w = (Ok [], w')).
  { destruct Hempty as [-> | Hfail].
    - exists w. subst nb. unfold py_ceil_div. simpl.
      reflexivity.
    - apply batch_loop_nil.
      + intros ch recs [H|H]; rewrite (proj1 (Hfail ch)) in H || rewrite (proj2 (Hfail ch)) in H;
          discriminate.
      + intros batch. unfold batch_combined.
        rewrite !successes_none by (intros ch; apply Hfail). reflexivity. }
  destruct Hloop as [w' E]. unfold bind at 1. rewrite E. reflexivity.
Qed.

Lemma gather_metrics_verbose_empty_raises_witness :
  fst (gather_metrics api_all_fail ["A"; "B"] 50 (1#10) 1 true (mkWorld [] []))
    = Err ZeroDivisionError.
Proof.
  apply gather_metrics_verbose_empty_raises.
  - left. reflexivity.
  - right. intros chunk. split; reflexivity.
Defined.

(** C4 (amended): over a run of [gather_metrics], each batch's
    [_process_symbol_batch] hands every symbol of its combined data to
    [store_metric_data] exactly once, in order (the keys are distinct): its
    mapped record, or the symbol-only fallback record when building the
    record raises, so a mapping failure never aborts the batch.  A failed
    insert is caught and logged inside [store_metric_data]: that row is not
    persisted and the run goes on.  The rows the run persists are exactly
    the accepted inserts, batch after batch; when no insert fails their
    number is the sum, over the batches, of the number of symbols in each
    batch's combined data (a symbol in several batches is stored once per
    batch).  The session check passes, the batch size is non-zero and the
    records are well formed (numeric fields hold numbers). *)
Theorem gather_metrics_stores_rows (api : Api) (symbols_list : list string)
  (symbols_per_batch : Z) (delay_between_calls delay_between_batches : Q)
  (verbose : bool) (w : World) :
  api_wf api -> session_ok api -> symbols_per_batch <> 0%Z ->
  exists psss,
    Forall2 (fun b pss =>
               NoDup (map fst (batch_combined api
                                 (batch_slice symbols_list (Z.to_nat symbols_per_batch) b))) /\
               Forall2 (row_params_ok api)
                       (batch_combined api
                          (batch_slice symbols_list (Z.to_nat symbols_per_batch) b)) pss)
            (seq 0 (Z.to_nat (py_ceil_div (Z.of_nat (List.length symbols_list))
                                          symbols_per_batch)))
            psss /\
    w_rows (snd (gather_metrics api symbols_list symbols_per_batch delay_between_calls
                                delay_between_batches verbose w))
      = w_rows w ++ List.concat (map (accepted_rows api) psss) /\
    (forall s row e, build_metrics_dict s row = Err e ->
       row_params_ok api (s, row) (VStr s :: repeat VNone 18)) /\
    ((forall ps, execute_query api "equity_data" ps = true) ->
     List.length (w_rows (snd (gather_metrics api symbols_list symbols_per_batch
                                 delay_between_calls delay_between_batches verbose w)))
       = List.length (w_rows w) +
         list_sum (map (fun b => List.length
                          (batch_combined api
                             (batch_slice symbols_list (Z.to_nat symbols_per_batch) b)))
                       (seq 0 (Z.to_nat (py_ceil_div (Z.of_nat (List.length symbols_list))
                                                     symbols_per_batch))))).
Proof.
  intros Hwf Hs Hp.
  set (nb := Z.to_nat (py_ceil_div (Z.of_nat (List.length symbols_list)) symbols_per_batch)).
  destruct (batch_loop_rows api symbols_list (Z.to_nat symbols_per_batch) nb
              delay_between_calls delay_between_batches (seq 0 nb) [] w Hwf)
    as [all [w' [psss (E & HF & R)]]].
  assert (HG : snd (gather_metrics api symbols_list symbols_per_batch delay_between_calls
                                   delay_between_batches verbose w) = w').
  { unfold gather_metrics, bind at 1. rewrite validate_session_ok by exact Hs.
    unfold bind at 1. rewrite (proj2 (Z.eqb_neq symbols_per_batch 0) Hp).
    unfold ret at 1. fold nb. unfold bind at 1. rewrite E.
    unfold summary, bind, ret, raise.
    destruct verbose; [destruct (Nat.eqb (List.length all) 0)|]; reflexivity. }
  rewrite HG. exists psss.
  split.
  { eapply Forall2_impl; [|exact HF]. intros b pss Hb. split; [apply combine_nodup | exact Hb]. }
  split; [exact R|]. split.
  - intros s row e He. unfold row_params_ok, metrics_dict_of. simpl.
    rewrite He. apply metric_params_fallback.
  - intros Hdb. rewrite R, length_app. f_equal.
    exact (accepted_rows_count api _ _ _ Hdb HF).
Qed.

Lemma gather_metrics_stores_rows_witness :
  exists psss,
    w_rows (snd (gather_metrics api_cd_fails ["A"; "B"; "C"] 2 (1#10) 1 false
                                (mkWorld [] [])))
      = w_rows (mkWorld [] []) ++ List.concat (map (accepted_rows api_cd_fails) psss).
Proof.
  destruct (gather_metrics_stores_rows api_cd_fails ["A"; "B"; "C"] 2 (1#10) 1 false
              (mkWorld [] [])) as [psss (_ & R & _)].
  - apply api_cd_fails_wf.
  - left. reflexivity.
  - discriminate.
  - exists psss. exact R.
Defined.

(** C4 counterexample: one symbol, an insert that fails: the run completes
    and returns one combined row, but no row is persisted. *)
Lemma gather_metrics_insert_failure_drops_row :
  match gather_metrics api_db_down ["A"] 50 (1#10) 1 false (mkWorld [] []) with
  | (Ok cd, w') => List.length cd = 1 /\ List.length (w_rows w') = 0
  | _ => False
  end.
Proof. vm_compute. split; reflexivity. Qed.

(** C8: with eleven symbols (two chunks of ten and one), a positive delay
    and a metrics call that raises for the first chunk, no delay separates
    the two calls: the sleep sits inside the [try] after the call. *)
Lemma fetch_metrics_no_delay_after_failed_chunk :
  w_trace (snd (_fetch_metrics_in_batches api_first_chunk_fails eleven_symbols
                                          (1#10) (mkWorld [] [])))
  = [TCall "get_market_metrics" ["A"; "B"; "C"; "D"; "E"; "F"; "G"; "H"; "I"; "J"];
     TCall "get_market_metrics" ["K"]].
Proof. vm_compute. reflexivity. Qed.

(** C7 (amended): [store_metric_data] persists [None] for every column whose
    source key is absent or [None] and coerces every other numeric column
    ([bid] .. [beta]) with [float()], [volume] with [int()]; absent fields
    never make it raise, and a failing insert is caught.
    [store_candle_data] coerces only [volume], [bid_volume], [ask_volume] and
    [imp_volatility] with [float()] (null when [None]) and passes every other
    field through unchanged, absent ones as null; when the four coerced keys
    are present it does not raise either.  An absent source is never
    persisted as zero. *)
Theorem store_params_null_not_zero (api : Api) :
  (forall d ps, metric_params api d = Ok ps ->
     Forall2 (column_ok d) equity_data_columns ps) /\
  (forall d, (forall k, In k (coerced_keys equity_data_columns) ->
                        numeric_or_none (dget d k) = true) ->
     exists ps, metric_params api d = Ok ps /\
                forall w, fst (store_metric_data api d w) = Ok tt) /\
  (forall d ps, candle_params api d = Ok ps ->
     Forall2 (column_ok d) market_data_columns ps) /\
  (forall d, (forall k, In k (coerced_keys market_data_columns) ->
                        exists v, od_lookup k d = Some v /\ numeric_or_none v = true) ->
     exists ps, candle_params api d = Ok ps /\
                forall w, fst (store_candle_data api d w) = Ok tt).
Proof.
  split; [|split; [|split]].
  - intros d ps. rewrite metric_params_columns.
    apply sequence_map_forall2, metric_column_ok.
  - intros d Hd. rewrite metric_params_columns.
    destruct (sequence_ok (map (metric_column api d) equity_data_columns)) as [ps E].
    { apply Forall_map, Forall_forall. intros [k c] Hin. unfold metric_column. simpl.
      destruct c.
      - eauto.
      - apply none_or_float_num, Hd. unfold coerced_keys.
        apply in_map_iff. exists (k, ToFloat). split; [reflexivity|].
        apply filter_In. split; [exact Hin | reflexivity].
      - apply none_or_int_num, Hd. unfold coerced_keys.
        apply in_map_iff. exists (k, ToInt). split; [reflexivity|].
        apply filter_In. split; [exact Hin | reflexivity]. }
    exists ps. split; [exact E|]. intros w. unfold store_metric_data.
    rewrite metric_params_columns, E. unfold try_except, db_insert.
    destruct (execute_query api "equity_data" ps); reflexivity.
  - intros d ps. rewrite candle_params_columns.
    apply sequence_map_forall2, candle_column_ok.
  - intros d Hd. rewrite candle_params_columns.
    destruct (sequence_ok (map (candle_column api d) market_data_columns)) as [ps E].
    { apply Forall_map, Forall_forall. intros [k c] Hin. unfold candle_column. simpl.
      destruct c.
      - eauto.
      - destruct (Hd k) as [v [Hv Hn]].
        { unfold coerced_keys. apply in_map_iff. exists (k, ToFloat).
          split; [reflexivity|]. apply filter_In. split; [exact Hin | reflexivity]. }
        unfold dsub. rewrite Hv. simpl. apply none_or_float_num, Hn.
      - destruct (Hd k) as [v [Hv Hn]].
        { unfold coerced_keys. apply in_map_iff. exists (k, ToInt).
          split; [reflexivity|]. apply filter_In. split; [exact Hin | reflexivity]. }
        unfold dsub. rewrite Hv. simpl. apply none_or_int_num, Hn. }
    exists ps. split; [exact E|]. intros w. unfold store_candle_data.
    rewrite candle_params_columns, E. unfold try_except, db_insert.
    destruct (execute_query api "market_data" ps); reflexivity.
Qed.

Lemma store_params_null_not_zero_witness :
  Forall2 (column_ok candle_c7) market_data_columns
    [VNone; VNone; VNone; VDecimal (3#2); VNone; VNone; VNone; VNone; VNone; VNone;
     VNone; VNone; VNone; VNone; VNone; VNone; VNone; VNone; VNone; VNone; VNone; VNone].
Proof.
  apply (proj1 (proj2 (proj2 (store_params_null_not_zero api_db_down)))).
  vm_compute. reflexivity.
Defined.

(** C7 counterexample: [store_candle_data] persists the [open] field of a
    candle as the Decimal it receives (it is not coerced to a float or an
    int), and a candle without a [volume] key makes it raise [KeyError]. *)
Lemma store_candle_data_keeps_decimal_open :
  (exists ps, candle_params api_db_down candle_c7 = Ok ps /\
              nth 3 ps VNone = VDecimal (3#2)) /\
  fst (store_candle_data api_db_down [("open", VInt 1)] (mkWorld [] [])) = Err KeyError.
Proof.
  split.
  - eexists. split; [vm_compute; reflexivity | reflexivity].
  - vm_compute. reflexivity.
Qed.

(** C5: for requested symbols without repetitions whose candles all belong to
    requested symbols, the backfill loop of [download_historical_data] stops
    at exactly the event the spec names: the first silence timeout, or the
    first event after which every requested symbol has signalled the end of
    its history (a candle older than the window start or with a zero close),
    whichever comes first; it raises nothing before.  For [X, Y] where X sends
    a candle and then a zero-close candle and Y stays silent, the loop stops
    at the timeout with only X's candle collected. *)
Theorem download_loop_stops_first (symbols : list string) (start_ms : Z)
  (evs : list candle_ev) :
  NoDup symbols ->
  (forall es t c d, In (CandleEv es t c d) evs -> In (base_symbol es) symbols) ->
  (hist_stop (download_loop symbols start_ms evs) = spec_stop symbols start_ms evs [] 0 /\
   forall e, download_loop symbols start_ms evs <> HRaised e) /\
  download_loop ["X"; "Y"] 0
    [CandleEv "X{=1d}" 10 5 (VInt 1); CandleEv "X{=1d}" 11 0 (VInt 2); CandleTimeout]
  = HStopped ByTimeout 3 [("X", [VInt 1]); ("Y", [])].
Proof.
  intros Hs Hevs. split; [|reflexivity].
  unfold download_loop. apply hist_loop_spec; auto.
  - constructor.
  - intros x [].
  - reflexivity.
  - intros s Hin. apply init_data_keys, Hin.
  - destruct symbols as [|x xs]; [left; reflexivity | right; reflexivity].
Qed.

Lemma download_loop_stops_first_witness :
  hist_stop (download_loop ["X"; "Y"] 0
    [CandleEv "X" 10 5 (VInt 1); CandleEv "X" (-1) 5 (VInt 2);
     CandleEv "Y{=1d}" 12 0 (VInt 3); CandleTimeout])
  = spec_stop ["X"; "Y"] 0
    [CandleEv "X" 10 5 (VInt 1); CandleEv "X" (-1) 5 (VInt 2);
     CandleEv "Y{=1d}" 12 0 (VInt 3); CandleTimeout] [] 0.
Proof.
  apply (proj1 (proj1 (download_loop_stops_first ["X"; "Y"] 0
    [CandleEv "X" 10 5 (VInt 1); CandleEv "X" (-1) 5 (VInt 2);
     CandleEv "Y{=1d}" 12 0 (VInt 3); CandleTimeout]
    ltac:(repeat constructor; simpl; intuition discriminate)
    ltac:(intros es t c d H; simpl in H;
          destruct H as [H | [H | [H | [H | []]]]]; try discriminate;
          injection H as <- <- <- <-; simpl; auto)))).
Defined.







(** ** Further properties of the code *)

(** The two fetchers never raise.  Each calls its API exactly once per
    10-symbol chunk of the input, in chunk order, whether or not the calls
    fail, and returns the records of the successful calls concatenated in
    chunk order; neither writes to the database. *)
Theorem fetchers_call_each_chunk_once (api : Api) (symbols_list : list string)
  (delay_between_calls : Q) (w : World) :
  let chunks := _chunk_symbols symbols_list 10 in
  (exists w' tr,
     _fetch_metrics_in_batches api symbols_list delay_between_calls w
       = (Ok (successes (get_market_metrics api) chunks), w') /\
     w_rows w' = w_rows w /\ w_trace w' = w_trace w ++ tr /\
     filter is_call tr = map (TCall "get_market_metrics") chunks) /\
  (exists w' tr,
     _fetch_market_data_in_batches api symbols_list delay_between_calls w
       = (Ok (successes (get_market_data_by_type api) chunks), w') /\
     w_rows w' = w_rows w /\ w_trace w' = w_trace w ++ tr /\
     filter is_call tr = map (TCall "get_market_data_by_type") chunks).
Proof.
  intros chunks. unfold _fetch_metrics_in_batches, _fetch_market_data_in_batches.
  fold chunks. split.
  - destruct (fetch_loop_ok "get_market_metrics" (get_market_metrics api)
                delay_between_calls (List.length chunks) 1 chunks [] w) as [w' [E R]].
    destruct (fetch_loop_calls "get_market_metrics" (get_market_metrics api)
                delay_between_calls (List.length chunks) 1 chunks [] w) as [tr [T F]].
    rewrite E in T. exists w', tr. rewrite E. auto.
  - destruct (fetch_loop_ok "get_market_data_by_type" (get_market_data_by_type api)
                delay_between_calls (List.length chunks) 1 chunks [] w) as [w' [E R]].
    destruct (fetch_loop_calls "get_market_data_by_type" (get_market_data_by_type api)
                delay_between_calls (List.length chunks) 1 chunks [] w) as [tr [T F]].
    rewrite E in T. exists w', tr. rewrite E. auto.
Qed.

(** When no chunk call fails, [_fetch_metrics_in_batches] sleeps exactly
    once between each two consecutive calls and never after the last one,
    for a positive delay; with a delay of zero or less it never sleeps. *)
Theorem fetch_metrics_spacing_without_failures (api : Api) (symbols_list : list string)
  (delay_between_calls : Q) (w : World) :
  (forall ch, In ch (_chunk_symbols symbols_list 10) -> get_market_metrics api ch <> None) ->
  w_trace (snd (_fetch_metrics_in_batches api symbols_list delay_between_calls w))
  = w_trace w ++
    (if Qpos_b delay_between_calls
     then sep_by (TSleep delay_between_calls)
                 (map (TCall "get_market_metrics") (_chunk_symbols symbols_list 10))
     else map (TCall "get_market_metrics") (_chunk_symbols symbols_list 10)).
Proof.
  intros Hc. unfold _fetch_metrics_in_batches.
  exact (fetch_loop_spaced _ _ _ _ 1 [] w (le_n 1) Hc).
Qed.

Lemma fetch_metrics_spacing_without_failures_witness :
  w_trace (snd (_fetch_metrics_in_batches (api_of (fun ch => Some (recs_of ch))
              (fun _ => Some []) (fun _ _ => true)) eleven_symbols (1#10) (mkWorld [] [])))
  = [TCall "get_market_metrics" ["A";"B";"C";"D";"E";"F";"G";"H";"I";"J"];
     TSleep (1#10); TCall "get_market_metrics" ["K"]].
Proof.
  rewrite (fetch_metrics_spacing_without_failures _ eleven_symbols (1#10) (mkWorld [] [])).
  - reflexivity.
  - intros ch _. discriminate.
Defined.

(** With a valid session, a batch size of zero makes [gather_metrics] raise
    [ZeroDivisionError]; a negative batch size gives no batch at all, so it
    returns an empty mapping (or raises [ZeroDivisionError] in the verbose
    summary).  In both cases no API call is made and nothing is stored. *)
Theorem gather_metrics_nonpositive_batch_size (api : Api) (symbols_list : list string)
  (symbols_per_batch : Z) (dc db : Q) (verbose : bool) (w : World) :
  session_ok api -> (symbols_per_batch <= 0)%Z ->
  gather_metrics api symbols_list symbols_per_batch dc db verbose w
  = (if Z.eqb symbols_per_batch 0 || verbose then Err ZeroDivisionError else Ok [], w).
Proof.
  intros Hs Hp. unfold gather_metrics, bind at 1. rewrite validate_session_ok by exact Hs.
  destruct (Z.eqb_spec symbols_per_batch 0) as [->|Hne]; [reflexivity|].
  unfold bind, ret. simpl.
  replace (Z.to_nat (py_ceil_div (Z.of_nat (List.length symbols_list)) symbols_per_batch))
    with 0%nat.
  - destruct verbose; reflexivity.
  - pose proof (py_ceil_div_nonpos (Z.of_nat (List.length symbols_list)) symbols_per_batch
                  ltac:(lia) ltac:(lia)). lia.
Qed.

Lemma gather_metrics_nonpositive_batch_size_witness :
  gather_metrics api_cd_fails ["A"; "B"] (-5) 0 0 false (mkWorld [] [])
  = (Ok [], mkWorld [] []).
Proof.
  apply (gather_metrics_nonpositive_batch_size api_cd_fails ["A"; "B"] (-5) 0 0 false).
  - left. reflexivity.
  - lia.
Defined.

(** When the session has expired and its refresh fails, [gather_metrics]
    raises the refresh error before any API call or insert. *)
Theorem gather_metrics_refresh_failure (api : Api) (symbols_list : list string)
  (symbols_per_batch : Z) (dc db : Q) (verbose : bool) (w : World) :
  session_expired api = true -> refresh_ok api = false ->
  gather_metrics api symbols_list symbols_per_batch dc db verbose w = (Err AuthError, w).
Proof.
  intros E R. unfold gather_metrics, bind at 1, validate_session. rewrite E, R. reflexivity.
Qed.

Lemma gather_metrics_refresh_failure_witness :
  gather_metrics (mkApi (fun _ => None) (fun _ => None) (fun _ _ => true) true false
                        (fun _ => None) (fun _ => None))
                 ["A"] 50 0 0 true (mkWorld [] []) = (Err AuthError, mkWorld [] []).
Proof. apply gather_metrics_refresh_failure; reflexivity. Defined.

(** For a positive batch size [p], [gather_metrics] processes
    [ceil(N/p)] batches; each batch slice holds at most [p] symbols and the
    slices, in batch order, concatenate back to the symbol list. *)
Theorem gather_batches_partition (symbols_list : list string) (p : nat) :
  0 < p ->
  let nb := Z.to_nat (py_ceil_div (Z.of_nat (List.length symbols_list)) (Z.of_nat p)) in
  nb = (List.length symbols_list + p - 1) / p /\
  Forall (fun b => List.length b <= p) (map (batch_slice symbols_list p) (seq 0 nb)) /\
  List.concat (map (batch_slice symbols_list p) (seq 0 nb)) = symbols_list.
Proof.
  intros Hp nb. assert (Hnb : nb = (List.length symbols_list + p - 1) / p)
    by (apply ceil_batches, Hp).
  split; [exact Hnb|]. split.
  - apply Forall_map, Forall_forall. intros b _. rewrite batch_slice_firstn.
    rewrite length_firstn. lia.
  - rewrite batch_slices_concat. simpl. apply firstn_all2.
    rewrite Hnb.
    pose proof (Nat.div_mod_eq (List.length symbols_list + p - 1) p).
    pose proof (Nat.mod_upper_bound (List.length symbols_list + p - 1) p ltac:(lia)).
    nia.
Qed.

Lemma gather_batches_partition_witness :
  List.concat (map (batch_slice eleven_symbols 4)
    (seq 0 (Z.to_nat (py_ceil_div (Z.of_nat (List.length eleven_symbols)) (Z.of_nat 4)))))
  = eleven_symbols.
Proof. apply (gather_batches_partition eleven_symbols 4). lia. Defined.

(** [_combine_data] lists its keys in order of first appearance: the
    metrics symbols first, then the market data symbols not already
    present.  A symbol repeated in an input keeps its first position, and
    its row holds the dump of its last record in each input. *)
Theorem combine_data_order_and_duplicates (metrics_data market_data : list Rec) :
  map fst (_combine_data metrics_data market_data)
    = fold_left (fun acc x => py_set_add x acc)
                (map rec_symbol metrics_data ++ map rec_symbol market_data) [] /\
  forall s, od_lookup s (_combine_data metrics_data market_data) =
    match last_dump s metrics_data, last_dump s market_data with
    | None, None => None
    | m, p => Some (mkCRow s m p)
    end.
Proof.
  split; [apply combine_keys_order | intros s; apply combine_lookup].
Qed.

(** In [_process_symbol_batch], a row whose metrics dump has a truthy
    [earnings] value that is not a dict makes [earnings.get] raise; the
    row is then stored as the symbol-only fallback record, and every
    column but [symbol] is inserted as [NULL]. *)
Theorem process_batch_nondict_earnings_fallback (api : Api) (symbol : string)
  (row : CRow) (d : pydict) :
  c_metrics row = Some d -> d <> [] ->
  truthy (dget d "earnings") = true ->
  (forall e, dget d "earnings" <> VDict e) ->
  metrics_dict_of symbol row = [("symbol", VStr symbol)] /\
  metric_params api (metrics_dict_of symbol row) = Ok (VStr symbol :: repeat VNone 18).
Proof.
  intros Hm Hd Ht He.
  assert (Hmg : mget (Some d) "earnings" = dget d "earnings").
  { unfold mget. destruct d; [contradiction | reflexivity]. }
  assert (H : metrics_dict_of symbol row = [("symbol", VStr symbol)]).
  { unfold metrics_dict_of, build_metrics_dict. cbv zeta. rewrite Hm, Hmg, Ht.
    destruct (dget d "earnings") eqn:E; try reflexivity.
    exfalso. exact (He d0 eq_refl). }
  split; [exact H|]. rewrite H. apply metric_params_fallback.
Qed.

Lemma process_batch_nondict_earnings_fallback_witness :
  metrics_dict_of "A" (mkCRow "A" (Some [("earnings", VStr "soon"); ("beta", VInt 1)]) None)
    = [("symbol", VStr "A")].
Proof.
  apply (process_batch_nondict_earnings_fallback api_cd_fails "A"
           (mkCRow "A" (Some [("earnings", VStr "soon"); ("beta", VInt 1)]) None)
           [("earnings", VStr "soon"); ("beta", VInt 1)]).
  - reflexivity.
  - discriminate.
  - reflexivity.
  - intros e. discriminate.
Defined.

(** With a valid session and a non-zero batch size, a non-verbose
    [gather_metrics] returns normally whatever chunk calls fail, and the
    keys of its mapping are exactly the symbols of the records returned by
    a successful metrics or market data call of some chunk of some batch. *)
Theorem gather_metrics_keys_exact (api : Api) (symbols_list : list string)
  (symbols_per_batch : Z) (dc db : Q) (w : World) :
  api_wf api -> session_ok api -> symbols_per_batch <> 0%Z ->
  exists m w',
    gather_metrics api symbols_list symbols_per_batch dc db false w = (Ok m, w') /\
    forall k, In k (map fst m) <->
      exists b ch recs,
        b < Z.to_nat (py_ceil_div (Z.of_nat (List.length symbols_list)) symbols_per_batch) /\
        In ch (_chunk_symbols (batch_slice symbols_list (Z.to_nat symbols_per_batch) b) 10) /\
        (get_market_metrics api ch = Some recs \/ get_market_data_by_type api ch = Some recs) /\
        In k (map rec_symbol recs).
Proof.
  intros Hwf Hs Hp.
  unfold gather_metrics, bind at 1. rewrite validate_session_ok by exact Hs.
  unfold bind at 1. rewrite (proj2 (Z.eqb_neq symbols_per_batch 0) Hp).
  unfold ret at 1.
  set (nb := Z.to_nat (py_ceil_div (Z.of_nat (List.length symbols_list)) symbols_per_batch)).
  destruct (batch_loop_keys api symbols_list (Z.to_nat symbols_per_batch) nb dc db
              (seq 0 nb) [] w Hwf) as [all [w' [E Hk]]].
  unfold bind at 1. rewrite E.
  exists all, w'. split; [reflexivity|].
  intros k. rewrite Hk. simpl (map fst []). split.
  - intros [[]|[b [Hb Hin]]]. apply in_seq in Hb.
    unfold batch_combined in Hin. apply combine_keys_iff in Hin.
    destruct Hin as [Hin|Hin]; apply successes_symbols in Hin;
      destruct Hin as [ch [recs [Hch [Hc Hr]]]];
      exists b, ch, recs; (split; [lia|]); (split; [exact Hch|]); split; auto.
  - intros [b [ch [recs [Hb [Hch [Hc Hr]]]]]]. right. exists b.
    split; [apply in_seq; lia|].
    unfold batch_combined. apply combine_keys_iff.
    destruct Hc as [Hc|Hc]; [left|right]; apply successes_symbols; exists ch, recs; auto.
Qed.

Lemma gather_metrics_keys_exact_witness :
  exists m w',
    gather_metrics api_cd_fails ["A"; "B"; "C"; "D"] 2 (1#10) 1 false (mkWorld [] [])
      = (Ok m, w').
Proof.
  destruct (gather_metrics_keys_exact api_cd_fails ["A"; "B"; "C"; "D"] 2 (1#10) 1
              (mkWorld [] [])) as [m [w' [E _]]].
  - apply api_cd_fails_wf.
  - left. reflexivity.
  - discriminate.
  - exists m, w'. exact E.
Defined.

(** With a valid session and a non-zero batch size, [gather_metrics] makes
    its API calls batch after batch: for each batch, one metrics call per
    10-symbol chunk, then one market data call per chunk, whether or not
    the calls fail (also when the verbose summary then raises). *)
Theorem gather_metrics_call_order (api : Api) (symbols_list : list string)
  (symbols_per_batch : Z) (dc db : Q) (verbose : bool) (w : World) :
  api_wf api -> session_ok api -> symbols_per_batch <> 0%Z ->
  exists tr,
    w_trace (snd (gather_metrics api symbols_list symbols_per_batch dc db verbose w))
      = w_trace w ++ tr /\
    filter is_call tr
      = List.concat (map (batch_calls symbols_list (Z.to_nat symbols_per_batch))
          (seq 0 (Z.to_nat (py_ceil_div (Z.of_nat (List.length symbols_list))
                                        symbols_per_batch)))).
Proof.
  intros Hwf Hs Hp.
  unfold gather_metrics, bind at 1. rewrite validate_session_ok by exact Hs.
  unfold bind at 1. rewrite (proj2 (Z.eqb_neq symbols_per_batch 0) Hp).
  unfold ret at 1.
  set (nb := Z.to_nat (py_ceil_div (Z.of_nat (List.length symbols_list)) symbols_per_batch)).
  destruct (batch_loop_calls api symbols_list (Z.to_nat symbols_per_batch) nb dc db
              (seq 0 nb) [] w Hwf) as [all [w' [tr [E [T F]]]]].
  unfold bind at 1. rewrite E.
  exists tr. split; [|exact F].
  rewrite <- T. unfold summary, bind, ret, raise.
  destruct verbose; [destruct (Nat.eqb (List.length all) 0)|]; reflexivity.
Qed.

Lemma gather_metrics_call_order_witness :
  exists tr,
    w_trace (snd (gather_metrics api_cd_fails ["A"; "B"; "C"] 2 0 0 true (mkWorld [] [])))
      = tr /\
    filter is_call tr
      = [TCall "get_market_metrics" ["A"; "B"]; TCall "get_market_data_by_type" ["A"; "B"];
         TCall "get_market_metrics" ["C"]; TCall "get_market_data_by_type" ["C"]].
Proof.
  destruct (gather_metrics_call_order api_cd_fails ["A"; "B"; "C"] 2 0 0 true
              (mkWorld [] [])) as [tr [T F]].
  - apply api_cd_fails_wf.
  - left. reflexivity.
  - discriminate.
  - exists tr. split; [exact T|]. rewrite F. vm_compute. reflexivity.
Defined.

(** When the backfill loop of [download_historical_data] ends (by the
    3-second timeout or by completion) after consuming [n] events, [data]
    still has one key per requested symbol, in the order of the request, and
    [data[s]] holds, in arrival order, the [model_dump()] of every candle of
    base symbol [s] among those [n] events whose time is inside the window
    and whose close is non-zero. *)
Theorem download_loop_collects_kept_candles (symbols : list string) (start_ms : Z)
  (evs : list candle_ev) (why : stop_reason) (n : nat) (data : list (string * list pyval)) :
  download_loop symbols start_ms evs = HStopped why n data ->
  map fst data = map fst (init_data symbols) /\
  forall s, In s symbols -> od_lookup s data = Some (flat_map (kept_dump start_ms s) (firstn n evs)).
Proof.
  unfold download_loop. intros H.
  destruct (hist_loop_collects _ _ _ _ _ _ _ _ _ H) as (_ & Hk & Hl).
  split; [exact Hk|]. intros s Hs. rewrite Hl, Nat.sub_0_r.
  destruct (init_data_keys symbols s Hs) as [l El].
  rewrite El. rewrite (init_data_empty _ _ _ El). reflexivity.
Qed.

Lemma download_loop_collects_kept_candles_witness :
  download_loop ["A"; "B"] 5
    [CandleEv "A{=1d}" 9 1 (VInt 7); CandleEv "B" 2 1 VNone; CandleEv "A" 1 1 VNone]
    = HStopped ByCompletion 3 [("A", [VInt 7]); ("B", [])] /\
  od_lookup "A" [("A", [VInt 7]); ("B", [])]
    = Some (flat_map (kept_dump 5 "A")
              (firstn 3 [CandleEv "A{=1d}" 9 1 (VInt 7); CandleEv "B" 2 1 VNone;
                         CandleEv "A" 1 1 VNone])).
Proof.
  assert (H : download_loop ["A"; "B"] 5
    [CandleEv "A{=1d}" 9 1 (VInt 7); CandleEv "B" 2 1 VNone; CandleEv "A" 1 1 VNone]
    = HStopped ByCompletion 3 [("A", [VInt 7]); ("B", [])]) by (vm_compute; reflexivity).
  split; [exact H|].
  exact (proj2 (download_loop_collects_kept_candles _ _ _ _ _ _ H) "A" (or_introl eq_refl)).
Defined.

(** The backfill loop of [download_historical_data] raises only
    [KeyError], and only on a candle whose time is inside the window, whose
    close is non-zero and whose base symbol was not requested. *)
Theorem download_loop_raises_only_on_unrequested (symbols : list string) (start_ms : Z)
  (evs : list candle_ev) (e : exn) :
  download_loop symbols start_ms evs = HRaised e ->
  e = KeyError /\
  exists es t c d, In (CandleEv es t c d) evs /\
    signals start_ms (CandleEv es t c d) = None /\ ~ In (base_symbol es) symbols.
Proof.
  unfold download_loop. intros H. eapply hist_loop_raises; [|exact H].
  intros s. apply init_data_keys_iff.
Qed.

Lemma download_loop_raises_only_on_unrequested_witness :
  download_loop ["A"] 5 [CandleEv "B" 9 1 VNone] = HRaised KeyError /\ ~ In "B" ["A"].
Proof.
  assert (H : download_loop ["A"] 5 [CandleEv "B" 9 1 VNone] = HRaised KeyError)
    by (vm_compute; reflexivity).
  split; [exact H|].
  destruct (download_loop_raises_only_on_unrequested _ _ _ _ H)
    as [_ [es [t [c [d [[Hin|[]] [_ Hn]]]]]]].
  injection Hin as <- _ _ _. exact Hn.
Defined.

(** The backfill loop of [download_historical_data] never ends by
    completion when the symbol list is empty, nor when it repeats a symbol
    and every signalling candle (time before the window or zero close) is
    for a requested symbol: it then ends only by the 3-second timeout. *)
Theorem download_loop_no_completion (symbols : list string) (start_ms : Z)
  (evs : list candle_ev) (n : nat) (data : list (string * list pyval)) :
  symbols = [] \/
    (~ NoDup symbols /\
     forall ev s, In ev evs -> signals start_ms ev = Some s -> In s symbols) ->
  download_loop symbols start_ms evs <> HStopped ByCompletion n data.
Proof.
  unfold download_loop. intros [-> | [Hd Hs]].
  - apply hist_loop_empty_no_completion.
  - apply hist_loop_dup_no_completion; auto.
    + constructor.
    + intros x [].
Qed.

Lemma download_loop_no_completion_witness :
  download_loop ["A"; "A"] 5 [CandleEv "A" 1 1 VNone; CandleEv "A{=1d}" 9 0 VNone]
    <> HStopped ByCompletion 2 (init_data ["A"; "A"]).
Proof.
  apply download_loop_no_completion. right. split.
  - intros H. inversion H as [|x l Hn Hnd]. apply Hn. left. reflexivity.
  - intros ev s Hin Hsig. destruct Hin as [<-|[<-|[]]]; vm_compute in Hsig;
      injection Hsig as <-; left; reflexivity.
Defined.

(** [on_candle] never raises.  It makes one [get_market_metrics] call for
    the candle's symbol and inserts at most one [market_data] row; when the
    metrics call fails it inserts nothing. *)
Theorem on_candle_never_raises (api : Api) (candle_data : Candle) (w : World) :
  exists rows,
    on_candle api candle_data w
      = (Ok tt, mkWorld (w_trace w ++ [TCall "get_market_metrics"
                                             [candle_event_symbol candle_data]])
                        (w_rows w ++ rows)) /\
    (rows = [] \/ exists ps, rows = [("market_data", ps)]) /\
    (get_market_metrics api [candle_event_symbol candle_data] = None -> rows = []).
Proof.
  unfold on_candle, try_except, bind, record_call. simpl.
  destruct (get_market_metrics api [candle_event_symbol candle_data]) as [m_data|].
  - unfold store_candle_data.
    destruct (candle_params api (candle_dict_of candle_data m_data)) as [ps|e].
    + unfold try_except, db_insert. simpl.
      destruct (execute_query api "market_data" ps).
      * exists [("market_data", ps)]. split; [reflexivity|]. split; [right; eauto | discriminate].
      * exists []. rewrite app_nil_r. split; [reflexivity|]. split; [left; reflexivity | auto].
    + exists []. rewrite app_nil_r. split; [reflexivity|]. split; [left; reflexivity | auto].
  - exists []. rewrite app_nil_r. split; [reflexivity|]. split; [left; reflexivity | auto].
Qed.

(** When the metrics call for the candle's symbol returns [m_data] and the
    candle's [volume], [bid_volume], [ask_volume] and [imp_volatility] are
    numbers or [None], [on_candle] inserts exactly one [market_data] row
    when the database accepts it, and none otherwise.  The row holds
    ["Candle"], the symbol, [time], [open], [high], [low] and [close] as
    they are, the four volume fields through [float()] ([None] kept), then
    the eleven metrics fields of [m_data[0]], all [None] when [m_data] is
    empty. *)
Theorem on_candle_stores_one_row (api : Api) (candle_data : Candle) (m_data : list Rec)
  (w : World) :
  get_market_metrics api [candle_event_symbol candle_data] = Some m_data ->
  Forall (fun v => numeric_or_none v = true)
         [candle_volume candle_data; candle_bid_volume candle_data;
          candle_ask_volume candle_data; candle_imp_volatility candle_data] ->
  exists mid,
    Forall2 (fun v p => none_or_float api v = Ok p)
            [candle_volume candle_data; candle_bid_volume candle_data;
             candle_ask_volume candle_data; candle_imp_volatility candle_data] mid /\
    on_candle api candle_data w
      = (Ok tt,
         mkWorld (w_trace w ++ [TCall "get_market_metrics" [candle_event_symbol candle_data]])
                 (w_rows w ++
                  if execute_query api "market_data" (candle_row candle_data mid m_data)
                  then [("market_data", candle_row candle_data mid m_data)] else [])).
Proof.
  intros Hc Hn. destruct (candle_params_ok api candle_data m_data Hn) as [mid [HF Hp]].
  exists mid. split; [exact HF|].
  unfold on_candle, try_except at 1, bind, record_call. simpl. rewrite Hc.
  unfold store_candle_data. rewrite Hp. unfold try_except, db_insert. simpl.
  destruct (execute_query api "market_data" (candle_row candle_data mid m_data));
    [reflexivity|]. rewrite app_nil_r. reflexivity.
Qed.

Lemma on_candle_stores_one_row_witness :
  exists mid,
    on_candle api_cd_fails
      (mkCandle "SPY" (VInt 1) (VInt 2) (VInt 3) (VInt 1) (VInt 2) (VInt 10) VNone VNone VNone)
      (mkWorld [] [])
    = (Ok tt, mkWorld [TCall "get_market_metrics" ["SPY"]]
                      ([] ++ if execute_query api_cd_fails "market_data"
                                  (candle_row (mkCandle "SPY" (VInt 1) (VInt 2) (VInt 3) (VInt 1)
                                                (VInt 2) (VInt 10) VNone VNone VNone) mid (recs_of ["SPY"]))
                             then [("market_data",
                                    candle_row (mkCandle "SPY" (VInt 1) (VInt 2) (VInt 3)
                                                 (VInt 1) (VInt 2) (VInt 10) VNone VNone VNone)
                                               mid (recs_of ["SPY"]))]
                             else [])).
Proof.
  destruct (on_candle_stores_one_row api_cd_fails
              (mkCandle "SPY" (VInt 1) (VInt 2) (VInt 3) (VInt 1) (VInt 2) (VInt 10)
                        VNone VNone VNone) (recs_of ["SPY"]) (mkWorld [] [])) as [mid [_ E]].
  - vm_compute. reflexivity.
  - repeat constructor.
  - exists mid. exact E.
Defined.

(** [clear_data(symbol)] for a non-empty [symbol] removes that key and
    leaves the others untouched, so [get_stored_data(symbol)] then returns
    [{symbol: []}].  An empty symbol string behaves like [None]:
    [clear_data("")] empties the whole store and [get_stored_data("")]
    returns all of it. *)
Theorem clear_then_get_stored (market_data : Store) (symbol : string) :
  symbol <> "" -> NoDup (map fst market_data) ->
  get_stored_data (clear_data market_data (Some symbol)) (Some symbol) = [(symbol, [])] /\
  (forall k, k <> symbol ->
     od_lookup k (clear_data market_data (Some symbol)) = od_lookup k market_data) /\
  clear_data market_data (Some "") = [] /\
  get_stored_data market_data (Some "") = market_data.
Proof.
  intros Hs Hnd.
  assert (Ht : truthy (VStr symbol) = true).
  { simpl. rewrite (proj2 (String.eqb_neq symbol "") Hs). reflexivity. }
  unfold clear_data, get_stored_data. rewrite Ht. split; [|split; [|split; reflexivity]].
  - rewrite od_delete_lookup, String.eqb_refl by exact Hnd. reflexivity.
  - intros k Hk. rewrite od_delete_lookup by exact Hnd.
    rewrite (proj2 (String.eqb_neq k symbol) Hk). reflexivity.
Qed.

Lemma clear_then_get_stored_witness :
  get_stored_data (clear_data [("A", [[("close", VInt 1)]]); ("B", [])] (Some "A")) (Some "A")
    = [("A", [])].
Proof.
  apply (clear_then_get_stored [("A", [[("close", VInt 1)]]); ("B", [])] "A").
  - discriminate.
  - simpl. repeat constructor; simpl; intuition discriminate.
Defined.

(** When the credentials are set, the symbol list is non-empty and the
    session, streamer, [__aenter__] and [subscribe] calls succeed,
    [connect] returns normally with the session and streamer set,
    [is_running] true and a fresh listen task.  The calls it makes end with
    creating the streamer, [__aenter__], [subscribe] and creating the task.
    A stale streamer is first stopped, and closed by [__aexit__], before the
    new one is created: this needs the stale listen task to finish, and
    neither [unsubscribe] nor [__aexit__] of the stale streamer to raise
    [CancelledError], which [stop] would let through.  Without a stale
    streamer, no other call is made. *)
Theorem connect_success (fuel : nat) (env : StreamEnv) (s : Sub) :
  client_secret env <> "" -> refresh_token env <> "" ->
  oauth_session env = Ok tt -> sub_symbols s <> [] ->
  dxlink_streamer env = Ok tt -> streamer_aenter env = Ok tt ->
  streamer_subscribe env = Ok tt ->
  (sub_streamer s = true ->
     task_settles fuel s /\ cancels (streamer_unsubscribe env) = false /\
     cancels (streamer_aexit env) = false) ->
  exists pre,
    connect fuel env s
      = Some (Ok tt, mkSub (sub_symbols s) true true true
                           (Some (mkListenTask false (new_task_ack env)))
                           (pre ++ [EvStreamerNew; EvAenter; EvSubscribe; EvCreateTask])) /\
    (exists mid, pre = sub_log s ++ mid) /\
    (sub_streamer s = true -> last pre EvCancel = EvAexit) /\
    (sub_streamer s = false -> pre = sub_log s).
Proof.
  intros Hc Hr Ho Hsy Hd Ha Hsu Ht.
  assert (Hbody : forall s1, sub_symbols s1 = sub_symbols s ->
            connect_body env s1
            = (Ok tt, mkSub (sub_symbols s) true true true
                            (Some (mkListenTask false (new_task_ack env)))
                            (sub_log s1 ++ [EvStreamerNew; EvAenter; EvSubscribe; EvCreateTask]))).
  { intros s1 Hs1.
    unfold connect_body, set_task, log_ev, set_running, set_streamer, set_session.
    rewrite (proj2 (String.eqb_neq _ _) Hc), (proj2 (String.eqb_neq _ _) Hr), Ho. simpl.
    rewrite Hs1. destruct (sub_symbols s) as [|x l]; [contradiction|]. simpl.
    rewrite Hd, Ha, Hsu. simpl. rewrite <- ?app_assoc. reflexivity. }
  unfold connect. destruct (sub_streamer s) eqn:Est.
  - destruct (Ht eq_refl) as (Hset & Hcu & Hca).
    destruct (stop fuel env s) as [[r s1]|] eqn:Es.
    + destruct (proj2 (stop_spec fuel env s) r s1 Es)
        as (_ & Hsy1 & Hmid & _ & [(-> & _ & _ & Hlast) | (_ & [Hx | Hx])]);
        [| congruence | congruence].
      rewrite (Hbody s1 Hsy1). exists (sub_log s1).
      split; [reflexivity|]. split; [exact Hmid|].
      split; [intros _; apply Hlast; exact Est | discriminate].
    + exfalso. apply (proj2 (proj1 (stop_spec fuel env s)) Hset). exact Es.
  - rewrite (Hbody s eq_refl). exists (sub_log s).
    split; [reflexivity|]. split; [exists []; rewrite app_nil_r; reflexivity|].
    split; [discriminate | reflexivity].
Qed.

Lemma connect_success_witness :
  exists pre,
    connect 5 env_ok sub_live
      = Some (Ok tt, mkSub ["SPY"] true true true (Some (mkListenTask false 1))
                           (pre ++ [EvStreamerNew; EvAenter; EvSubscribe; EvCreateTask])).
Proof.
  destruct (connect_success 5 env_ok sub_live) as [pre [E _]].
  - discriminate.
  - discriminate.
  - reflexivity.
  - discriminate.
  - reflexivity.
  - reflexivity.
  - reflexivity.
  - intros _. split; [unfold task_settles; simpl; right; repeat constructor
                    | split; reflexivity].
  - exists pre. exact E.
Defined.

(** With a valid session and a non-zero batch size, a non-verbose
    [gather_metrics] returns, for each symbol, the combined row of the last
    batch whose combined data holds it: [all_combined_data.update]
    overwrites the row of an earlier batch (a symbol repeated across
    batches), and a later batch without the symbol leaves it as it was. *)
Theorem gather_metrics_last_batch_wins (api : Api) (symbols_list : list string)
  (symbols_per_batch : Z) (dc db : Q) (w : World) :
  api_wf api -> session_ok api -> symbols_per_batch <> 0%Z ->
  exists m w',
    gather_metrics api symbols_list symbols_per_batch dc db false w = (Ok m, w') /\
    forall k row, od_lookup k m = Some row <->
      exists b,
        b < Z.to_nat (py_ceil_div (Z.of_nat (List.length symbols_list)) symbols_per_batch) /\
        od_lookup k (batch_combined api
                       (batch_slice symbols_list (Z.to_nat symbols_per_batch) b)) = Some row /\
        forall b',
          b < b' < Z.to_nat (py_ceil_div (Z.of_nat (List.length symbols_list))
                                         symbols_per_batch) ->
          od_lookup k (batch_combined api
                         (batch_slice symbols_list (Z.to_nat symbols_per_batch) b')) = None.
Proof.
  intros Hwf Hs Hp.
  unfold gather_metrics, bind at 1. rewrite validate_session_ok by exact Hs.
  unfold bind at 1. rewrite (proj2 (Z.eqb_neq symbols_per_batch 0) Hp).
  unfold ret at 1.
  set (nb := Z.to_nat (py_ceil_div (Z.of_nat (List.length symbols_list)) symbols_per_batch)).
  destruct (batch_loop_lookup api symbols_list (Z.to_nat symbols_per_batch) nb dc db
              (seq 0 nb) [] w Hwf) as [all [w' [E Hk]]].
  unfold bind at 1. rewrite E.
  exists all, w'. split; [reflexivity|].
  intros k row. rewrite Hk. apply fold_last_seq.
Qed.

Lemma gather_metrics_last_batch_wins_witness :
  exists m w',
    gather_metrics api_cd_fails ["A"; "B"; "A"] 2 0 0 false (mkWorld [] []) = (Ok m, w').
Proof.
  destruct (gather_metrics_last_batch_wins api_cd_fails ["A"; "B"; "A"] 2 0 0
              (mkWorld [] [])) as [m [w' [E _]]].
  - apply api_cd_fails_wf.
  - left. reflexivity.
  - discriminate.
  - exists m, w'. exact E.
Defined.
